(** * Simulated topographic-residual time-series (sim_3_topo_residual.ipynb)

    A shallow embedding of the notebook
    [examples/simulations/sim_3_topo_residual.ipynb]: its three code cells
    become state-passing computations over the kernel variables, a small
    file system and a trace of the calls made to the outside world.

    Numbers are IEEE-754 binary floats, taken from the Standard Library's
    [SpecFloat] (an executable, axiom-free specification of the format);
    arrays are finite tables of such numbers with NumPy's broadcasting
    rules written out. *)

From Stdlib Require Import ZArith Bool List Lia SpecFloat.
From stdpp Require Import base option list strings gmap.

Open Scope nat_scope.

(* ===================================================================== *)
(** ** Scalars: NumPy floating-point element types *)
(* ===================================================================== *)

(** The binary interchange formats NumPy offers for floating-point arrays.
    All arrays read from the input files are assumed to share one of them;
    the notebook's own log shows [float32] for the data it handles. *)
Inductive dtype := float16 | float32 | float64.

Definition prec (dt : dtype) : Z :=
  match dt with float16 => 11 | float32 => 24 | float64 => 53 end%Z.

Definition emax (dt : dtype) : Z :=
  match dt with float16 => 16 | float32 => 128 | float64 => 1024 end%Z.

(** A Python float literal combined with an array of element type [dt] is
    first converted to [dt] (round to nearest even).  The literal is given
    as the integer pair [m * 2^e] of its binary64 value. *)
Definition py_float (dt : dtype) (m e : Z) : spec_float :=
  binary_normalize (prec dt) (emax dt) m e false.

(** [10.], [180.] and [np.pi] as they appear in cell 2. *)
Definition lit_10 (dt : dtype) : spec_float := py_float dt 10 0.
Definition lit_180 (dt : dtype) : spec_float := py_float dt 180 0.
Definition np_pi (dt : dtype) : spec_float :=
  py_float dt 884279719003555 (-48).

(** Storing into an [np.float32] array converts every element to binary32;
    zeros, infinities and NaN keep their class. *)
Definition astype_float32 (v : spec_float) : spec_float :=
  match v with
  | S754_finite s m e => binary_round 24 128 s m e
  | _ => v
  end.

(** Classification predicates, as booleans so that they evaluate. *)
Definition is_zero (v : spec_float) : bool :=
  match v with S754_zero _ => true | _ => false end.

Definition is_nan (v : spec_float) : bool :=
  match v with S754_nan => true | _ => false end.

Definition is_inf (v : spec_float) : bool :=
  match v with S754_infinity _ => true | _ => false end.

(** [np.isfinite]: zeros and finite non-zero numbers. *)
Definition isfinite (v : spec_float) : bool :=
  match v with S754_zero _ | S754_finite _ _ _ => true | _ => false end.

(** Non-zero and finite: what a usable denominator is. *)
Definition is_regular (v : spec_float) : bool :=
  match v with S754_finite _ _ _ => true | _ => false end.

(* ===================================================================== *)
(** ** Exceptions and results *)
(* ===================================================================== *)

Inductive exn :=
| IndexError
| ValueError
| KeyError (name : string)
| OSError (path : string).

Inductive result (A : Type) :=
| Ok (a : A)
| Raise (e : exn).
Arguments Ok {A} a.
Arguments Raise {A} e.

Definition rbind {A B} (r : result A) (k : A -> result B) : result B :=
  match r with
  | Ok a => k a
  | Raise e => Raise e
  end.

(* ===================================================================== *)
(** ** Arrays *)
(* ===================================================================== *)

(** A 2-D raster: its shape and its rows.  Only the cells inside the shape
    are ever inspected. *)
Record ndarray2 := mk2 {
  rows : nat;
  cols : nat;
  cells : list (list spec_float)
}.

(** A 3-D stack, date x row x column. *)
Record ndarray3 := mk3 {
  dates : nat;
  len : nat;
  wid : nat;
  slices : list (list (list spec_float))
}.

Definition at_row (r : list (list spec_float)) (y x : nat) : spec_float :=
  default S754_nan (r !! y ≫= fun row => row !! x).

(** [a[y, x]] *)
Definition at2 (a : ndarray2) (y x : nat) : spec_float :=
  at_row (cells a) y x.

(** [ts[i, y, x]] *)
Definition at3 (t : ndarray3) (i y x : nat) : spec_float :=
  at_row (default [] (slices t !! i)) y x.

Definition tabulate {A} (n : nat) (f : nat -> A) : list A :=
  f <$> seq 0 n.

Definition table (r c : nat) (f : nat -> nat -> spec_float)
  : list (list spec_float) :=
  tabulate r (fun y => tabulate c (fun x => f y x)).

Definition build2 (r c : nat) (f : nat -> nat -> spec_float) : ndarray2 :=
  mk2 r c (table r c f).

(** Element-wise application of a unary function ([np.sin(a)],
    [a * scalar], [a / scalar]). *)
Definition map2d (f : spec_float -> spec_float) (a : ndarray2) : ndarray2 :=
  build2 (rows a) (cols a) (fun y x => f (at2 a y x)).

(** NumPy broadcasting of one axis: equal extents, or one of them is 1. *)
Definition broadcast_dim (m n : nat) : option nat :=
  if m =? n then Some m
  else if m =? 1 then Some n
  else if n =? 1 then Some m
  else None.

(** Index into an axis that may have been stretched from extent 1. *)
Definition bidx (extent i : nat) : nat :=
  if extent =? 1 then 0 else i.

(** The cell of [a] that lands on position [(y, x)] of a broadcast result. *)
Definition bat (a : ndarray2) (y x : nat) : spec_float :=
  at2 a (bidx (rows a) y) (bidx (cols a) x).

(** Element-wise binary operation on two rasters with broadcasting; shapes
    that cannot be broadcast together raise [ValueError]. *)
Definition zip2d (op : spec_float -> spec_float -> spec_float)
    (a b : ndarray2) : result ndarray2 :=
  match broadcast_dim (rows a) (rows b), broadcast_dim (cols a) (cols b) with
  | Some r, Some c => Ok (build2 r c (fun y x => op (bat a y x) (bat b y x)))
  | _, _ => Raise ValueError
  end.

(** [np.zeros((n, l, w), np.float32)] *)
Definition np_zeros (n l w : nat) : ndarray3 :=
  mk3 n l w (replicate n (table l w (fun _ _ => S754_zero false))).

(** An axis of the assigned value fits the target axis when it has the same
    extent or extent 1 (the target is never stretched). *)
Definition fits (src dst : nat) : bool :=
  (src =? dst) || (src =? 1).

(** [ts[i, :, :] = v]: the value is broadcast to the slice shape and stored
    as float32. *)
Definition setitem_slice (t : ndarray3) (i : nat) (v : ndarray2)
  : result ndarray3 :=
  if negb (i <? dates t) then Raise IndexError
  else if fits (rows v) (len t) && fits (cols v) (wid t) then
    Ok (mk3 (dates t) (len t) (wid t)
          (<[i := table (len t) (wid t)
                    (fun y x => astype_float32 (bat v y x))]> (slices t)))
  else Raise ValueError.

(** [p[i]] on a 1-D array, for a non-negative index. *)
Definition getitem (p : list spec_float) (i : nat) : result spec_float :=
  match p !! i with
  | Some v => Ok v
  | None => Raise IndexError
  end.

(* ===================================================================== *)
(** ** The outside world: files, calls, kernel variables *)
(* ===================================================================== *)

(** Contents of an HDF5 file as the notebook sees it through [pysar]: a
    time-series product (baselines, dimensions, data cube) or a raster file
    holding named 2-D datasets in file order. *)
Inductive h5file :=
| H5Timeseries (bperp : list spec_float) (numDate length width : nat)
               (data : ndarray3)
| H5Datasets (dsets : list (string * ndarray2)).

(** What the notebook does to the outside world, in order. *)
Inductive event :=
| EvChdir (dir : string)
| EvPrint (line : string)
| EvOpen (path : string)
| EvRead (path : string) (dataset : option string)
| EvWrite (path : string) (ref : string)
| EvShell (argv : list string).

(** Kernel state: the file system, the trace of calls, and the variables
    that cell 1 binds and cell 2 uses ([pbase], [num_date], [length],
    [width]). *)
Record nb_state := mkState {
  fs : gmap string h5file;
  trace : list event;
  v_pbase : list spec_float;
  v_num_date : nat;
  v_length : nat;
  v_width : nat
}.

(** State-and-exception monad of a running cell: an exception leaves the
    state as it was when it was raised. *)
Definition M (A : Type) : Type := nb_state -> nb_state * result A.

Definition ret {A} (a : A) : M A := fun s => (s, Ok a).

Definition bind {A B} (m : M A) (k : A -> M B) : M B :=
  fun s =>
    match m s with
    | (s', Ok a) => k a s'
    | (s', Raise e) => (s', Raise e)
    end.

Declare Scope nb_scope.
Delimit Scope nb_scope with nb.
Notation "x <- m ;; k" := (bind m (fun x => k))
  (at level 100, m at next level, right associativity) : nb_scope.
Notation "m ;; k" := (bind m (fun _ => k))
  (at level 100, right associativity) : nb_scope.
Open Scope nb_scope.

Definition lift {A} (r : result A) : M A := fun s => (s, r).

Definition get_state : M nb_state := fun s => (s, Ok s).

Definition emit (e : event) : M unit :=
  fun s => (mkState (fs s) (trace s ++ [e]) (v_pbase s) (v_num_date s)
              (v_length s) (v_width s), Ok tt).

Definition set_pbase (p : list spec_float) : M unit :=
  fun s => (mkState (fs s) (trace s) p (v_num_date s) (v_length s)
              (v_width s), Ok tt).

Definition set_num_date (n : nat) : M unit :=
  fun s => (mkState (fs s) (trace s) (v_pbase s) n (v_length s)
              (v_width s), Ok tt).

Definition set_length (n : nat) : M unit :=
  fun s => (mkState (fs s) (trace s) (v_pbase s) (v_num_date s) n
              (v_width s), Ok tt).

Definition set_width (n : nat) : M unit :=
  fun s => (mkState (fs s) (trace s) (v_pbase s) (v_num_date s)
              (v_length s) n, Ok tt).

Definition set_fs (f : gmap string h5file) : M unit :=
  fun s => (mkState f (trace s) (v_pbase s) (v_num_date s) (v_length s)
              (v_width s), Ok tt).

(** [print(...)] and [os.chdir(...)] *)
Definition print (line : string) : M unit := emit (EvPrint line).
Definition os_chdir (dir : string) : M unit := emit (EvChdir dir).

(** [os.path.isfile(path)] *)
Definition os_path_isfile (path : string) : M bool :=
  fun s => (s, Ok (bool_decide (is_Some (fs s !! path)))).

(** [!cmd args]: IPython hands the line to the system shell. *)
Definition shell (argv : list string) : M unit := emit (EvShell argv).

Fixpoint assoc (name : string) (l : list (string * ndarray2))
  : option ndarray2 :=
  match l with
  | [] => None
  | (k, v) :: rest => if String.eqb k name then Some v else assoc name rest
  end.

(** Modelled from the spec: the reading routine of the [pysar] library
    ([readfile.read], whose code is not part of the notebook).  The spec
    describes it as reading arrays keyed by dataset name from existing
    raster files, failing on a missing file; without a dataset name the
    file's first dataset is returned. *)
Definition read_dataset (files : gmap string h5file) (path : string)
    (dataset : option string) : result ndarray2 :=
  match files !! path with
  | None => Raise (OSError path)
  | Some (H5Timeseries _ _ _ _ _) => Raise (KeyError (default "" dataset))
  | Some (H5Datasets dsets) =>
      match dataset with
      | Some name =>
          match assoc name dsets with
          | Some a => Ok a
          | None => Raise (KeyError name)
          end
      | None =>
          match dsets with
          | (_, a) :: _ => Ok a
          | [] => Raise (KeyError "")
          end
      end
  end.

Definition readfile_read (path : string) (dataset : option string)
  : M ndarray2 :=
  emit (EvRead path dataset);;
  s <- get_state;;
  lift (read_dataset (fs s) path dataset).

(** Modelled from the spec: the time-series object of the [pysar] library
    ([timeseries(path).open()]), "an opened time-series object exposing
    baseline/date arrays" together with the raster dimensions. *)
Definition open_timeseries (files : gmap string h5file) (path : string)
  : result (list spec_float * nat * nat * nat) :=
  match files !! path with
  | Some (H5Timeseries b n l w _) => Ok (b, n, l, w)
  | _ => Raise (OSError path)
  end.

Definition timeseries_open (path : string)
  : M (list spec_float * nat * nat * nat) :=
  emit (EvOpen path);;
  s <- get_state;;
  lift (open_timeseries (fs s) path).

(** Modelled from the spec: the writing routine of the [pysar] library
    ([writefile.write(data, out_file=..., ref_file=...)]): it creates (or
    replaces) [out_file] as a time-series product holding [data], with the
    baselines of the reference file; a missing reference file is an
    error. *)
Definition write_timeseries (files : gmap string h5file) (data : ndarray3)
    (out ref : string) : result (gmap string h5file) :=
  match files !! ref with
  | Some (H5Timeseries b _ _ _ _) =>
      Ok (<[out := H5Timeseries b (dates data) (len data) (wid data) data]>
            files)
  | _ => Raise (OSError ref)
  end.

Definition writefile_write (data : ndarray3) (out ref : string) : M unit :=
  emit (EvWrite out ref);;
  s <- get_state;;
  f <- lift (write_timeseries (fs s) data out ref);;
  set_fs f.

(* ===================================================================== *)
(** ** The notebook *)
(* ===================================================================== *)

Definition os_path_join (a b : string) : string := a +:+ "/" +:+ b.

(** Paths are kept in the form the notebook writes them; the file system of
    the model is keyed by these names. *)
Definition work_dir : string := "$PNOTE/phaseCorrection_order".
Definition proj_dir : string :=
  "~/insarlab/PYSAR_EXAMPLE/AlcedoSenDT128/PYSAR".
Definition ts_file : string := os_path_join proj_dir "timeseries.h5".
Definition geom_file : string :=
  os_path_join proj_dir "INPUTS/geometryRadar.h5".
Definition dem_err_file : string := os_path_join proj_dir "demErr.h5".
Definition out_file : string := "sim_topoResid.h5".

Section Notebook.

(** Element type of the arrays stored in the input files, and the
    library's element-wise sine on that type. *)
Variable dt : dtype.
Variable np_sin : spec_float -> spec_float.

Definition fsub : spec_float -> spec_float -> spec_float :=
  SFsub (prec dt) (emax dt).
Definition fmul : spec_float -> spec_float -> spec_float :=
  SFmul (prec dt) (emax dt).
Definition fdiv : spec_float -> spec_float -> spec_float :=
  SFdiv (prec dt) (emax dt).

(** [pbase -= pbase[0]]: the first element is read once, as a scalar,
    and subtracted from every element. *)
Definition normalize (p : list spec_float) : result (list spec_float) :=
  rbind (getitem p 0) (fun p0 => Ok ((fun v => fsub v p0) <$> p)).

(** [pbase *= 10.] *)
Definition amplify (p : list spec_float) : list spec_float :=
  (fun v => fmul v (lit_10 dt)) <$> p.

(** Cell 1.  The sensor name looked up from [ts_file] is bound to a
    variable that nothing reads afterwards; it is left out. *)
Definition cell1 : M unit :=
  os_chdir work_dir;;
  print ("Go to directory: " +:+ work_dir);;
  ts <- timeseries_open ts_file;;
  let '(b, n, l, w) := ts in
  set_pbase b;;
  p <- lift (normalize b);;
  set_pbase p;;
  set_num_date n;;
  set_length l;;
  set_width w.

(** [inc_angle * np.pi / 180.] *)
Definition radians (inc_angle : ndarray2) : ndarray2 :=
  map2d (fun a => fdiv a (lit_180 dt))
    (map2d (fun a => fmul a (np_pi dt)) inc_angle).

(** [rg_dist * np.sin(inc_angle * np.pi / 180.)] *)
Definition denominator (rg_dist inc_angle : ndarray2) : result ndarray2 :=
  zip2d fmul rg_dist (map2d np_sin (radians inc_angle)).

(** The right-hand side of the loop body for a baseline value [p]:
    [dem_err * p / (rg_dist * np.sin(inc_angle * np.pi / 180.))]. *)
Definition residual_slice (dem_err rg_dist inc_angle : ndarray2)
    (p : spec_float) : result ndarray2 :=
  let num := map2d (fun d => fmul d p) dem_err in
  rbind (denominator rg_dist inc_angle) (fun den => zip2d fdiv num den).

(** [for i in range(num_date): ts_data[i,:,:] = ...] *)
Fixpoint epoch_loop (range : list nat) (pb : list spec_float)
    (dem_err rg_dist inc_angle : ndarray2) (ts_data : ndarray3)
  : result ndarray3 :=
  match range with
  | [] => Ok ts_data
  | i :: rest =>
      rbind (getitem pb i) (fun p =>
      rbind (residual_slice dem_err rg_dist inc_angle p) (fun v =>
      rbind (setitem_slice ts_data i v) (fun ts_data' =>
      epoch_loop rest pb dem_err rg_dist inc_angle ts_data')))
  end.

(** The same expression read at one pixel: the denominator and the
    quotient at [(y, x)], each operand taken at its broadcast position. *)
Definition den_at (rg_dist inc_angle : ndarray2) (y x : nat) : spec_float :=
  fmul (bat rg_dist y x)
       (np_sin (fdiv (fmul (bat inc_angle y x) (np_pi dt)) (lit_180 dt))).

Definition pixel (dem_err rg_dist inc_angle : ndarray2) (p : spec_float)
    (y x : nat) : spec_float :=
  fdiv (fmul (bat dem_err y x) p) (den_at rg_dist inc_angle y x).

(** Lines 78-80 of the notebook file: allocate and fill [ts_data]. *)
Definition topo_resid (pb : list spec_float) (n l w : nat)
    (dem_err rg_dist inc_angle : ndarray2) : result ndarray3 :=
  epoch_loop (seq 0 n) pb dem_err rg_dist inc_angle (np_zeros n l w).

(** The body of the [if] up to the computed array. *)
Definition simulate : M ndarray3 :=
  inc_angle <- readfile_read geom_file (Some "incidenceAngle");;
  rg_dist <- readfile_read geom_file (Some "slantRangeDistance");;
  s <- get_state;;
  set_pbase (amplify (v_pbase s));;
  dem_err <- readfile_read dem_err_file None;;
  s <- get_state;;
  lift (topo_resid (v_pbase s) (v_num_date s) (v_length s) (v_width s)
          dem_err rg_dist inc_angle).

(** Cell 2. *)
Definition cell2 : M unit :=
  present <- os_path_isfile out_file;;
  (if negb present then
     ts_data <- simulate;;
     writefile_write ts_data out_file ts_file;;
     print ("write simulated topographic residual time-series to file "
              +:+ out_file)
   else ret tt);;
  print "Done.".

(** Cell 3: [!view.py $out_file -n 4]. *)
Definition cell3 : M unit :=
  shell ["view.py"; out_file; "-n"; "4"].

(** Running the notebook top to bottom; an exception in a cell stops the
    run. *)
Definition run_notebook : M unit :=
  cell1;; cell2;; cell3.

(** A call made by cell 2 fails with [e]: one of the three reads, the
    array computation (a shape mismatch or a missing baseline), or the
    write.  A call is only reached when the calls before it returned; the
    list gives the external calls made up to and including the failing
    one, each of them once. *)
Inductive cell2_call_fails (s : nb_state) : exn -> list event -> Prop :=
| fails_read_inc e :
    read_dataset (fs s) geom_file (Some "incidenceAngle") = Raise e ->
    cell2_call_fails s e [EvRead geom_file (Some "incidenceAngle")]
| fails_read_rg inc e :
    read_dataset (fs s) geom_file (Some "incidenceAngle") = Ok inc ->
    read_dataset (fs s) geom_file (Some "slantRangeDistance") = Raise e ->
    cell2_call_fails s e
      [EvRead geom_file (Some "incidenceAngle");
       EvRead geom_file (Some "slantRangeDistance")]
| fails_read_dem inc rg e :
    read_dataset (fs s) geom_file (Some "incidenceAngle") = Ok inc ->
    read_dataset (fs s) geom_file (Some "slantRangeDistance") = Ok rg ->
    read_dataset (fs s) dem_err_file None = Raise e ->
    cell2_call_fails s e
      [EvRead geom_file (Some "incidenceAngle");
       EvRead geom_file (Some "slantRangeDistance");
       EvRead dem_err_file None]
| fails_compute inc rg dem e :
    read_dataset (fs s) geom_file (Some "incidenceAngle") = Ok inc ->
    read_dataset (fs s) geom_file (Some "slantRangeDistance") = Ok rg ->
    read_dataset (fs s) dem_err_file None = Ok dem ->
    topo_resid (amplify (v_pbase s)) (v_num_date s) (v_length s)
      (v_width s) dem rg inc = Raise e ->
    cell2_call_fails s e
      [EvRead geom_file (Some "incidenceAngle");
       EvRead geom_file (Some "slantRangeDistance");
       EvRead dem_err_file None]
| fails_write inc rg dem ts e :
    read_dataset (fs s) geom_file (Some "incidenceAngle") = Ok inc ->
    read_dataset (fs s) geom_file (Some "slantRangeDistance") = Ok rg ->
    read_dataset (fs s) dem_err_file None = Ok dem ->
    topo_resid (amplify (v_pbase s)) (v_num_date s) (v_length s)
      (v_width s) dem rg inc = Ok ts ->
    write_timeseries (fs s) ts out_file ts_file = Raise e ->
    cell2_call_fails s e
      [EvRead geom_file (Some "incidenceAngle");
       EvRead geom_file (Some "slantRangeDistance");
       EvRead dem_err_file None;
       EvWrite out_file ts_file].

End Notebook.

(* ===================================================================== *)
(** ** Observations on a run *)
(* ===================================================================== *)

(** The data cube stored in the output file, if there is one. *)
Definition written_cube (s : nb_state) : option ndarray3 :=
  match fs s !! out_file with
  | Some (H5Timeseries _ _ _ _ d) => Some d
  | _ => None
  end.

(** The calls a computation adds to the trace when started in [s]. *)
Definition new_events {A} (m : M A) (s : nb_state) : list event :=
  drop (length (trace s)) (trace (m s).1).

(** Calls that touch file contents. *)
Definition is_io (e : event) : bool :=
  match e with
  | EvRead _ _ | EvWrite _ _ => true
  | _ => false
  end.

Definition is_write (e : event) : bool :=
  match e with EvWrite _ _ => true | _ => false end.

Definition is_shell (e : event) : bool :=
  match e with EvShell _ => true | _ => false end.

Definition count_writes (l : list event) : nat := length (filter is_write l).
Definition count_shells (l : list event) : nat := length (filter is_shell l).

(* ===================================================================== *)
(** ** Sample data for the closed examples *)
(* ===================================================================== *)

(** A small integer as a binary32 number. *)
Definition f32 (z : Z) : spec_float := binary_normalize 24 128 z 0 false.

(** A table of the sine at the only two arguments the examples use:
    [sin(+-0) = +-0], and the sine of the binary32 number nearest to pi/2
    (what 90 degrees becomes) rounds to 1.  Other arguments are not
    tabulated and never occur in the examples. *)
Definition sin_samples (v : spec_float) : spec_float :=
  match v with
  | S754_zero s => S754_zero s
  | S754_finite false 13176795 (-23)%Z => S754_finite false 8388608 (-23)
  | _ => S754_nan
  end.

(** Input files: a reference time-series with baselines [raw] and
    dimensions [(n, l, w)], the geometry file and the DEM-error file. *)
Definition sample_fs (raw : list spec_float) (n l w : nat)
    (inc rg dem : ndarray2) : gmap string h5file :=
  {[ ts_file := H5Timeseries raw n l w (np_zeros n l w);
     geom_file := H5Datasets [("incidenceAngle", inc);
                              ("slantRangeDistance", rg)];
     dem_err_file := H5Datasets [("dem", dem)] ]}.

(** A freshly started kernel: nothing printed, no variable bound yet. *)
Definition boot (files : gmap string h5file) : nb_state :=
  mkState files [] [] 0 0 0.

(** Two dates, one row of two pixels: incidence 90 and 0 degrees, unit
    range, DEM errors 1 and 2, baselines 3 and 4. *)
Definition inc_ex : ndarray2 := mk2 1 2 [[f32 90; f32 0]].
Definition rg_ex : ndarray2 := mk2 1 2 [[f32 1; f32 1]].
Definition dem_ex : ndarray2 := mk2 1 2 [[f32 1; f32 2]].
Definition raw_ex : list spec_float := [f32 3; f32 4].

Definition fs_ex : gmap string h5file :=
  sample_fs raw_ex 2 1 2 inc_ex rg_ex dem_ex.

(** The same inputs with the output file already in place. *)
Definition fs_ex_present : gmap string h5file :=
  <[out_file := H5Timeseries raw_ex 2 1 2 (np_zeros 2 1 2)]> fs_ex.

(** The same inputs next to an unrelated file. *)
Definition fs_ex_extra : gmap string h5file :=
  <["maskTempCoh.h5" := H5Datasets []]> fs_ex.

(** The same inputs with a NaN DEM error at the first pixel. *)
Definition dem_nan_ex : ndarray2 := mk2 1 2 [[S754_nan; f32 2]].
Definition fs_nan_ex : gmap string h5file :=
  sample_fs raw_ex 2 1 2 inc_ex rg_ex dem_nan_ex.

(** Baselines whose first entry is infinite. *)
Definition raw_inf_ex : list spec_float := [S754_infinity false; f32 4].

(** Rasters of a single cell against a declared size of 1 x 2. *)
Definition fs_bcast_ex : gmap string h5file :=
  sample_fs raw_ex 2 1 2 (mk2 1 1 [[f32 90]]) (mk2 1 1 [[f32 1]])
    (mk2 1 1 [[f32 1]]).

(** Only the reference time-series exists. *)
Definition fs_nogeom_ex : gmap string h5file :=
  {[ ts_file := H5Timeseries raw_ex 2 1 2 (np_zeros 2 1 2) ]}.

(* ===================================================================== *)
(** ** Shapes of the loop body, and further sample data *)
(* ===================================================================== *)

(** The shape of the value the loop body assigns, when the three rasters
    broadcast together: first [rg_dist] against [inc_angle], then
    [dem_err] against that product. *)
Definition slice_shape (dem_err rg_dist inc_angle : ndarray2)
  : option (nat * nat) :=
  match broadcast_dim (rows rg_dist) (rows inc_angle),
        broadcast_dim (cols rg_dist) (cols inc_angle) with
  | Some r2, Some c2 =>
      match broadcast_dim (rows dem_err) r2,
            broadcast_dim (cols dem_err) c2 with
      | Some r, Some c => Some (r, c)
      | _, _ => None
      end
  | _, _ => None
  end.

(** The assigned value exists and fits a slice of [l] rows and [w]
    columns. *)
Definition loop_shapes_ok (l w : nat) (dem_err rg_dist inc_angle : ndarray2)
  : bool :=
  match slice_shape dem_err rg_dist inc_angle with
  | Some (r, c) => fits r l && fits c w
  | None => false
  end.

(** The value actually held at [ts[i, y, x]]: [None] when the cube holds no
    such cell. *)
Definition stored (t : ndarray3) (i y x : nat) : option spec_float :=
  slices t !! i ≫= fun slice => slice !! y ≫= fun row => row !! x.

(** The one-line computation the specification speaks of, written from its
    words and not from the loop: [dem_err] broadcast against the 1-D
    baseline array, divided element-wise by
    [rg_dist * sin(inc_angle * pi / 180)],
    [dem_err * pbase[:, None, None]
       / (rg_dist * np.sin(inc_angle * np.pi / 180.))].
    One date per baseline; the rasters broadcast among themselves; the
    elements keep the element type of the operands. *)
Definition one_line_broadcast (dt : dtype)
    (np_sin : spec_float -> spec_float) (pb : list spec_float)
    (dem_err rg_dist inc_angle : ndarray2) : result ndarray3 :=
  match slice_shape dem_err rg_dist inc_angle with
  | Some (r, c) =>
      Ok (mk3 (length pb) r c
            ((fun p => table r c (fun y x =>
                SFdiv (prec dt) (emax dt)
                  (SFmul (prec dt) (emax dt) (bat dem_err y x) p)
                  (SFmul (prec dt) (emax dt) (bat rg_dist y x)
                     (np_sin
                        (SFdiv (prec dt) (emax dt)
                           (SFmul (prec dt) (emax dt) (bat inc_angle y x)
                              (py_float dt 884279719003555 (-48)))
                           (py_float dt 180 0))))))
             <$> pb))
  | None => Raise ValueError
  end.

(** Rasters of a single cell: incidence 90 degrees, unit range, unit DEM
    error. *)
Definition inc_one_ex : ndarray2 := mk2 1 1 [[f32 90]].
Definition rg_one_ex : ndarray2 := mk2 1 1 [[f32 1]].
Definition dem_one_ex : ndarray2 := mk2 1 1 [[f32 1]].

(** The same single-cell rasters in binary64, a baseline of 0.1 (which
    binary32 cannot hold exactly), and the sine at what 90 degrees becomes
    in binary64. *)
Definition f64 (z : Z) : spec_float := binary_normalize 53 1024 z 0 false.
Definition inc_one_ex64 : ndarray2 := mk2 1 1 [[f64 90]].
Definition rg_one_ex64 : ndarray2 := mk2 1 1 [[f64 1]].
Definition dem_one_ex64 : ndarray2 := mk2 1 1 [[f64 1]].
Definition tenth64 : spec_float := S754_finite false 7205759403792794 (-56).

Definition sin_samples64 (v : spec_float) : spec_float :=
  match v with
  | S754_zero s => S754_zero s
  | S754_finite false 7074237752028440 (-52)%Z =>
      S754_finite false 4503599627370496 (-52)
  | _ => S754_nan
  end.

(** The kernel after cell 1 has run on the sample inputs, and the same
    kernel once the reference time-series has been removed from disk. *)
Definition after_cell1_ex : nb_state := (cell1 float32 (boot fs_ex)).1.

Definition after_cell1_noref_ex : nb_state :=
  mkState (delete ts_file fs_ex) (trace after_cell1_ex)
    (v_pbase after_cell1_ex) 2 1 2.

(** The sample inputs without the DEM-error file. *)
Definition fs_nodem_ex : gmap string h5file :=
  {[ ts_file := H5Timeseries raw_ex 2 1 2 (np_zeros 2 1 2);
     geom_file := H5Datasets [("incidenceAngle", inc_ex);
                              ("slantRangeDistance", rg_ex)] ]}.

(** A reference time-series that declares two dates but holds no
    baseline. *)
Definition fs_nobase_ex : gmap string h5file :=
  sample_fs [] 2 1 2 inc_ex rg_ex dem_ex.

(** Baselines whose first entry is NaN. *)
Definition raw_nan_ex : list spec_float := [S754_nan; f32 4].
Definition fs_nanbase_ex : gmap string h5file :=
  sample_fs raw_nan_ex 2 1 2 inc_ex rg_ex dem_ex.

(** A raster of three columns, which fits no slice of two. *)
Definition inc_wide_ex : ndarray2 := mk2 1 3 [[f32 90; f32 0; f32 90]].

(* ===================================================================== *)
(** ** Arrays: lookup lemmas *)
(* ===================================================================== *)

Lemma tabulate_lookup {A} (n i : nat) (f : nat -> A) :
  i < n -> tabulate n f !! i = Some (f i).
Proof.
  intros Hi. unfold tabulate.
  rewrite list_lookup_fmap, lookup_seq_lt by lia. reflexivity.
Qed.

Lemma tabulate_length {A} (n : nat) (f : nat -> A) :
  length (tabulate n f) = n.
Proof. unfold tabulate. rewrite length_fmap, length_seq. reflexivity. Qed.

Lemma at_row_table (r c y x : nat) (f : nat -> nat -> spec_float) :
  y < r -> x < c -> at_row (table r c f) y x = f y x.
Proof.
  intros Hy Hx. unfold at_row, table.
  rewrite tabulate_lookup by assumption. simpl.
  rewrite tabulate_lookup by assumption. reflexivity.
Qed.

Lemma at2_build2 (r c y x : nat) (f : nat -> nat -> spec_float) :
  y < r -> x < c -> at2 (build2 r c f) y x = f y x.
Proof. intros. unfold at2, build2. simpl. now apply at_row_table. Qed.

Lemma fits_true (m L : nat) : fits m L = true <-> m = L \/ m = 1.
Proof.
  unfold fits. rewrite orb_true_iff, !Nat.eqb_eq. reflexivity.
Qed.

Lemma bidx_lt (m L y : nat) : fits m L = true -> y < L -> bidx m y < m.
Proof.
  rewrite fits_true. unfold bidx. intros [-> | ->] Hy.
  - destruct (Nat.eqb_spec L 1); lia.
  - simpl. lia.
Qed.

Lemma broadcast_dim_fits (m n r L : nat) :
  broadcast_dim m n = Some r -> fits r L = true ->
  fits m L = true /\ fits n L = true.
Proof.
  unfold broadcast_dim. rewrite !fits_true.
  destruct (Nat.eqb_spec m n); [intros [= <-]; subst; tauto|].
  destruct (Nat.eqb_spec m 1); [intros [= <-]; subst; tauto|].
  destruct (Nat.eqb_spec n 1); [intros [= <-]; subst; tauto|].
  discriminate.
Qed.

Lemma broadcast_dim_bidx (m n r y : nat) :
  broadcast_dim m n = Some r ->
  bidx m (bidx r y) = bidx m y /\ bidx n (bidx r y) = bidx n y.
Proof.
  unfold broadcast_dim, bidx.
  destruct (Nat.eqb_spec m n) as [->|Hmn].
  - intros [= <-]. destruct (Nat.eqb_spec n 1); auto.
  - destruct (Nat.eqb_spec m 1) as [->|Hm].
    + intros [= <-]. destruct (Nat.eqb_spec n 1); [lia | auto].
    + destruct (Nat.eqb_spec n 1) as [->|Hn]; [|discriminate].
      intros [= <-]. destruct (Nat.eqb_spec m 1); [lia | auto].
Qed.

Lemma fits_refl (m : nat) : fits m m = true.
Proof. apply fits_true. now left. Qed.

(** Reading a broadcast position of a freshly built raster. *)
Lemma bat_build2 (r c L W y x : nat) (f : nat -> nat -> spec_float) :
  fits r L = true -> fits c W = true -> y < L -> x < W ->
  bat (build2 r c f) y x = f (bidx r y) (bidx c x).
Proof.
  intros Hr Hc Hy Hx. unfold bat. simpl.
  apply at2_build2; eauto using bidx_lt.
Qed.

Lemma bat_map2d (f : spec_float -> spec_float) (a : ndarray2)
    (L W y x : nat) :
  fits (rows a) L = true -> fits (cols a) W = true -> y < L -> x < W ->
  bat (map2d f a) y x = f (bat a y x).
Proof.
  intros Hr Hc Hy Hx. unfold map2d.
  erewrite bat_build2 by eassumption. reflexivity.
Qed.

Lemma zip2d_shape op (a b v : ndarray2) :
  zip2d op a b = Ok v ->
  broadcast_dim (rows a) (rows b) = Some (rows v) /\
  broadcast_dim (cols a) (cols b) = Some (cols v).
Proof.
  unfold zip2d.
  destruct (broadcast_dim (rows a) (rows b)) as [r|]; [|discriminate].
  destruct (broadcast_dim (cols a) (cols b)) as [c|]; [|discriminate].
  intros [= <-]. simpl. auto.
Qed.

Lemma bat_zip2d op (a b v : ndarray2) (L W y x : nat) :
  zip2d op a b = Ok v ->
  fits (rows v) L = true -> fits (cols v) W = true -> y < L -> x < W ->
  bat v y x = op (bat a y x) (bat b y x).
Proof.
  intros Hz Hr Hc Hy Hx.
  destruct (zip2d_shape _ _ _ _ Hz) as [Er Ec].
  unfold zip2d in Hz. rewrite Er, Ec in Hz. injection Hz as <-.
  simpl in Hr, Hc.
  erewrite bat_build2 by eassumption.
  unfold bat.
  destruct (broadcast_dim_bidx _ _ _ y Er) as [-> ->].
  destruct (broadcast_dim_bidx _ _ _ x Ec) as [-> ->].
  reflexivity.
Qed.

Lemma zip2d_fits op (a b v : ndarray2) (L W : nat) :
  zip2d op a b = Ok v ->
  fits (rows v) L = true -> fits (cols v) W = true ->
  (fits (rows a) L = true /\ fits (cols a) W = true) /\
  (fits (rows b) L = true /\ fits (cols b) W = true).
Proof.
  intros Hz Hr Hc.
  destruct (zip2d_shape _ _ _ _ Hz) as [Er Ec].
  destruct (broadcast_dim_fits _ _ _ _ Er Hr).
  destruct (broadcast_dim_fits _ _ _ _ Ec Hc).
  auto.
Qed.

Lemma table_ext (r c : nat) (f g : nat -> nat -> spec_float) :
  (forall y x, y < r -> x < c -> f y x = g y x) -> table r c f = table r c g.
Proof.
  intros H. unfold table, tabulate.
  apply list_eq. intros y. rewrite !list_lookup_fmap.
  destruct (decide (y < r)) as [Hy|Hy].
  - rewrite lookup_seq_lt by lia. simpl. f_equal.
    apply list_eq. intros x. rewrite !list_lookup_fmap.
    destruct (decide (x < c)) as [Hx|Hx].
    + rewrite lookup_seq_lt by lia. simpl. f_equal. auto.
    + rewrite lookup_seq_ge by lia. reflexivity.
  - rewrite lookup_seq_ge by lia. reflexivity.
Qed.

(* ===================================================================== *)
(** ** The loop body and the epoch loop *)
(* ===================================================================== *)

Section LoopFacts.

Variable dt : dtype.
Variable np_sin : spec_float -> spec_float.

(** The denominator raster, read at a broadcast position, is the
    per-pixel denominator. *)
Lemma bat_denominator (rg inc den : ndarray2) (L W y x : nat) :
  denominator dt np_sin rg inc = Ok den ->
  fits (rows den) L = true -> fits (cols den) W = true ->
  y < L -> x < W ->
  bat den y x = den_at dt np_sin rg inc y x.
Proof.
  intros Hd Hr Hc Hy Hx. unfold denominator in Hd.
  destruct (zip2d_fits _ _ _ _ _ _ Hd Hr Hc) as [_ [Hr' Hc']].
  simpl in Hr', Hc'.
  rewrite (bat_zip2d _ _ _ _ _ _ _ _ Hd Hr Hc Hy Hx).
  unfold den_at. f_equal.
  rewrite (bat_map2d _ _ L W) by assumption. f_equal.
  unfold radians.
  rewrite (bat_map2d _ _ L W) by assumption. f_equal.
  rewrite (bat_map2d _ _ L W) by assumption. reflexivity.
Qed.

(** The value assigned to a slice, read at a broadcast position, is the
    per-pixel quotient. *)
Lemma bat_residual_slice (dem rg inc v : ndarray2) (p : spec_float)
    (L W y x : nat) :
  residual_slice dt np_sin dem rg inc p = Ok v ->
  fits (rows v) L = true -> fits (cols v) W = true ->
  y < L -> x < W ->
  bat v y x = pixel dt np_sin dem rg inc p y x.
Proof.
  intros Hv Hr Hc Hy Hx. unfold residual_slice in Hv.
  destruct (denominator dt np_sin rg inc) as [den|e] eqn:Hd;
    simpl in Hv; [|discriminate].
  destruct (zip2d_fits _ _ _ _ _ _ Hv Hr Hc) as [[Hr1 Hc1] [Hr2 Hc2]].
  simpl in Hr1, Hc1.
  rewrite (bat_zip2d _ _ _ _ _ _ _ _ Hv Hr Hc Hy Hx).
  unfold pixel. f_equal.
  - rewrite (bat_map2d _ _ L W) by assumption. reflexivity.
  - eapply bat_denominator; eassumption.
Qed.

(** The shape of the assigned value does not depend on the baseline. *)
Lemma residual_slice_shape (dem rg inc v : ndarray2) (p q : spec_float) :
  residual_slice dt np_sin dem rg inc p = Ok v ->
  exists v', residual_slice dt np_sin dem rg inc q = Ok v' /\
             rows v' = rows v /\ cols v' = cols v.
Proof.
  unfold residual_slice.
  destruct (denominator dt np_sin rg inc) as [den|e]; simpl; [|discriminate].
  unfold zip2d. simpl.
  destruct (broadcast_dim (rows dem) (rows den)); [|discriminate].
  destruct (broadcast_dim (cols dem) (cols den)); [|discriminate].
  intros [= <-]. eexists. split; [reflexivity|]. simpl. auto.
Qed.

Lemma setitem_slice_ok (t : ndarray3) (i : nat) (v : ndarray2) :
  i < dates t -> fits (rows v) (len t) = true ->
  fits (cols v) (wid t) = true ->
  setitem_slice t i v =
    Ok (mk3 (dates t) (len t) (wid t)
          (<[i := table (len t) (wid t)
                    (fun y x => astype_float32 (bat v y x))]> (slices t))).
Proof.
  intros Hi Hr Hc. unfold setitem_slice.
  destruct (Nat.ltb_spec i (dates t)); [|lia]. simpl.
  rewrite Hr, Hc. reflexivity.
Qed.

Lemma setitem_slice_inv (t t' : ndarray3) (i : nat) (v : ndarray2) :
  setitem_slice t i v = Ok t' ->
  i < dates t /\ fits (rows v) (len t) = true /\
  fits (cols v) (wid t) = true /\
  t' = mk3 (dates t) (len t) (wid t)
         (<[i := table (len t) (wid t)
                   (fun y x => astype_float32 (bat v y x))]> (slices t)).
Proof.
  unfold setitem_slice.
  destruct (Nat.ltb_spec i (dates t)); simpl; [|discriminate].
  destruct (fits (rows v) (len t)); simpl; [|discriminate].
  destruct (fits (cols v) (wid t)); simpl; [|discriminate].
  intros [= <-]. auto.
Qed.

(** What a completed loop has stored: the shape is kept, every visited
    date holds the converted quotient for its own baseline, every other
    date is untouched. *)
Lemma epoch_loop_inv (range : list nat) (pb : list spec_float)
    (dem rg inc : ndarray2) :
  forall t t',
    epoch_loop dt np_sin range pb dem rg inc t = Ok t' ->
    length (slices t) = dates t ->
    (dates t' = dates t /\ len t' = len t /\ wid t' = wid t /\
     length (slices t') = dates t') /\
    forall i,
      (i ∈ range ->
         exists p v, pb !! i = Some p /\
           residual_slice dt np_sin dem rg inc p = Ok v /\
           fits (rows v) (len t) = true /\ fits (cols v) (wid t) = true /\
           slices t' !! i =
             Some (table (len t) (wid t)
                     (fun y x => astype_float32 (bat v y x)))) /\
      (i ∉ range -> slices t' !! i = slices t !! i).
Proof.
  induction range as [|j rest IH]; intros t t' Hrun Hlen.
  - simpl in Hrun. injection Hrun as <-.
    split; [auto|]. intros i. split; [|auto].
    intros Hin. inversion Hin.
  - simpl in Hrun. unfold getitem in Hrun.
    destruct (pb !! j) as [p|] eqn:Hp; simpl in Hrun; [|discriminate].
    destruct (residual_slice dt np_sin dem rg inc p) as [v|] eqn:Hv;
      simpl in Hrun; [|discriminate].
    destruct (setitem_slice t j v) as [t1|] eqn:Hset;
      simpl in Hrun; [|discriminate].
    destruct (setitem_slice_inv _ _ _ _ Hset) as (Hj & Hr & Hc & ->).
    specialize (IH _ _ Hrun). simpl in IH.
    rewrite length_insert in IH. specialize (IH Hlen).
    destruct IH as [(Hd & Hl & Hw & Hn) IH].
    split; [auto|].
    intros i. destruct (IH i) as [IHin IHout]. split.
    + intros Hin. destruct (decide (i ∈ rest)) as [Hr'|Hr']; [auto|].
      apply elem_of_cons in Hin as [->|Hin]; [|contradiction].
      exists p, v. repeat split; try assumption.
      rewrite (IHout Hr').
      apply list_lookup_insert_eq. lia.
    + intros Hnot. apply not_elem_of_cons in Hnot as [Hne Hnot].
      rewrite (IHout Hnot).
      apply list_lookup_insert_ne. congruence.
Qed.

(** The loop raises nothing when every visited date has a baseline and
    the assigned value fits the slice. *)
Lemma epoch_loop_total (range : list nat) (pb : list spec_float)
    (dem rg inc v0 : ndarray2) (p0 : spec_float) :
  residual_slice dt np_sin dem rg inc p0 = Ok v0 ->
  forall t,
    fits (rows v0) (len t) = true -> fits (cols v0) (wid t) = true ->
    (forall i, i ∈ range -> i < dates t /\ i < length pb) ->
    exists t', epoch_loop dt np_sin range pb dem rg inc t = Ok t'.
Proof.
  intros Hv0. induction range as [|j rest IH]; intros t Hr Hc Hin.
  - eexists. reflexivity.
  - destruct (Hin j) as [Hj Hjp]; [left|].
    destruct (lookup_lt_is_Some_2 pb j Hjp) as [p Hp].
    destruct (residual_slice_shape _ _ _ _ _ p Hv0) as (v & Hv & Er & Ec).
    simpl. unfold getitem. rewrite Hp. simpl. rewrite Hv. simpl.
    rewrite setitem_slice_ok by (rewrite ?Er, ?Ec; assumption). simpl.
    apply IH; simpl; try assumption.
    intros i Hi. apply Hin. now right.
Qed.

End LoopFacts.

Section ArrayFacts.

Variable dt : dtype.
Variable np_sin : spec_float -> spec_float.

Lemma np_zeros_slices (n l w : nat) : length (slices (np_zeros n l w)) = n.
Proof. simpl. apply length_replicate. Qed.

(** Every date of a computed array is the table of converted per-pixel
    quotients for the baseline of that date, and the rasters fit the
    slice shape. *)
Lemma topo_resid_slices (pb : list spec_float) (n l w : nat)
    (dem rg inc : ndarray2) (ts : ndarray3) :
  topo_resid dt np_sin pb n l w dem rg inc = Ok ts ->
  (dates ts = n /\ len ts = l /\ wid ts = w /\ length (slices ts) = n) /\
  forall i, i < n ->
    exists p, pb !! i = Some p /\
      slices ts !! i =
        Some (table l w (fun y x =>
                astype_float32 (pixel dt np_sin dem rg inc p y x))).
Proof.
  intros Hrun. unfold topo_resid in Hrun.
  destruct (epoch_loop_inv _ _ _ _ _ _ _ _ _ Hrun (np_zeros_slices n l w))
    as [(Hd & Hl & Hw & Hn) Hcells].
  simpl in Hd, Hl, Hw. split; [rewrite Hn; auto|].
  intros i Hi.
  destruct (Hcells i) as [Hin _].
  destruct Hin as (p & v & Hp & Hv & Hr & Hc & Hs).
  { apply elem_of_seq. lia. }
  simpl in Hr, Hc, Hs.
  exists p. split; [assumption|].
  rewrite Hs. f_equal. apply table_ext. intros y x Hy Hx.
  f_equal. eapply bat_residual_slice; eassumption.
Qed.

Lemma topo_resid_pixels (pb : list spec_float) (n l w : nat)
    (dem rg inc : ndarray2) (ts : ndarray3) :
  topo_resid dt np_sin pb n l w dem rg inc = Ok ts ->
  forall i y x, i < n -> y < l -> x < w ->
    exists p, pb !! i = Some p /\
      at3 ts i y x = astype_float32 (pixel dt np_sin dem rg inc p y x).
Proof.
  intros Hrun i y x Hi Hy Hx.
  destruct (topo_resid_slices _ _ _ _ _ _ _ _ Hrun) as [_ Hs].
  destruct (Hs i Hi) as (p & Hp & Hsl).
  exists p. split; [assumption|].
  unfold at3. rewrite Hsl. simpl. now apply at_row_table.
Qed.

(** A date was stored only if the rasters fit the slice shape. *)
Lemma topo_resid_fits (pb : list spec_float) (n l w : nat)
    (dem rg inc : ndarray2) (ts : ndarray3) :
  topo_resid dt np_sin pb n l w dem rg inc = Ok ts -> 0 < n ->
  (fits (rows dem) l = true /\ fits (cols dem) w = true) /\
  (fits (rows rg) l = true /\ fits (cols rg) w = true) /\
  (fits (rows inc) l = true /\ fits (cols inc) w = true).
Proof.
  intros Hrun Hn. unfold topo_resid in Hrun.
  destruct (epoch_loop_inv _ _ _ _ _ _ _ _ _ Hrun (np_zeros_slices n l w))
    as [_ Hcells].
  destruct (Hcells 0) as [Hin _].
  destruct Hin as (p & v & _ & Hv & Hr & Hc & _).
  { apply elem_of_seq. lia. }
  simpl in Hr, Hc. unfold residual_slice in Hv.
  destruct (denominator dt np_sin rg inc) as [den|e] eqn:Hd;
    simpl in Hv; [|discriminate].
  destruct (zip2d_fits _ _ _ _ _ _ Hv Hr Hc) as [Hdem [Hr2 Hc2]].
  simpl in Hdem. split; [exact Hdem|].
  unfold denominator in Hd.
  destruct (zip2d_fits _ _ _ _ _ _ Hd Hr2 Hc2) as [Hrg Hinc].
  simpl in Hinc. auto.
Qed.

(** The computation raises nothing once the shapes agree, whatever the
    values in the arrays. *)
Lemma topo_resid_total (pb : list spec_float) (n l w : nat)
    (dem rg inc v0 : ndarray2) (p0 : spec_float) :
  n <= length pb ->
  residual_slice dt np_sin dem rg inc p0 = Ok v0 ->
  fits (rows v0) l = true -> fits (cols v0) w = true ->
  exists ts, topo_resid dt np_sin pb n l w dem rg inc = Ok ts.
Proof.
  intros Hn Hv Hr Hc. unfold topo_resid.
  eapply epoch_loop_total; try eassumption.
  intros i Hi. apply elem_of_seq in Hi. simpl. lia.
Qed.

End ArrayFacts.

(* ===================================================================== *)
(** ** Scalar facts *)
(* ===================================================================== *)


Lemma SFsub_diag (p e : Z) (a : spec_float) :
  isfinite a = true -> SFsub p e a a = S754_zero false.
Proof.
  destruct a as [s|s| |s m x]; try discriminate; intros _.
  - destruct s; reflexivity.
  - unfold SFsub. rewrite Z.sub_diag. reflexivity.
Qed.

Lemma lit_10_regular (dt : dtype) :
  exists m e, lit_10 dt = S754_finite false m e.
Proof. destruct dt; vm_compute; eauto. Qed.

(** Conversion to float32 keeps zeros, infinities and NaN. *)
Lemma astype_float32_zero (v : spec_float) :
  is_zero v = true -> is_zero (astype_float32 v) = true.
Proof. destruct v; try discriminate; reflexivity. Qed.

Lemma astype_float32_nonfinite (v : spec_float) :
  isfinite v = false -> isfinite (astype_float32 v) = false.
Proof. destruct v; try discriminate; reflexivity. Qed.

Lemma SFmul_zero_r (p e : Z) (a z : spec_float) :
  isfinite a = true -> is_zero z = true -> is_zero (SFmul p e a z) = true.
Proof.
  destruct a, z; try discriminate; reflexivity.
Qed.

Lemma SFdiv_zero_l (p e : Z) (z d : spec_float) :
  is_zero z = true -> is_regular d = true -> is_zero (SFdiv p e z d) = true.
Proof.
  destruct z, d; try discriminate; reflexivity.
Qed.

Lemma SFdiv_by_zero (p e : Z) (a d : spec_float) :
  is_zero d = true -> isfinite (SFdiv p e a d) = false.
Proof.
  destruct d; try discriminate; intros _. destruct a; reflexivity.
Qed.

(** The constants of cell 2 in binary32, and what 90 degrees becomes: the
    argument at which the sample sine is tabulated. *)
Example np_pi_float32 : np_pi float32 = S754_finite false 13176795 (-22).
Proof. reflexivity. Qed.

Example lit_10_float32 : lit_10 float32 = f32 10.
Proof. reflexivity. Qed.

Example ninety_degrees :
  fdiv float32 (fmul float32 (f32 90) (np_pi float32)) (lit_180 float32)
  = S754_finite false 13176795 (-23).
Proof. vm_compute. reflexivity. Qed.

(* ===================================================================== *)
(** ** Running the cells *)
(* ===================================================================== *)

Ltac run_cell :=
  unfold cell1, cell2, cell3, simulate, writefile_write, readfile_read,
    timeseries_open, print, os_chdir, shell, emit, get_state, set_pbase,
    set_num_date, set_length, set_width, set_fs, lift, ret, bind,
    os_path_isfile; cbn [fs trace v_pbase v_num_date v_length v_width negb].

Section CellFacts.

Variable dt : dtype.
Variable np_sin : spec_float -> spec_float.

(** Cell 2 when the output file is already there. *)
Lemma cell2_present (s : nb_state) :
  is_Some (fs s !! out_file) ->
  cell2 dt np_sin s =
    (mkState (fs s) (trace s ++ [EvPrint "Done."]) (v_pbase s)
       (v_num_date s) (v_length s) (v_width s), Ok tt).
Proof.
  intros Hp. run_cell.
  rewrite (bool_decide_eq_true_2 _ Hp). reflexivity.
Qed.

(** Cell 2 when the output file is absent, call by call: the state in
    which each possible exception leaves the kernel, and the final state
    of a run that raises nothing. *)
Lemma cell2_absent (s : nb_state) :
  fs s !! out_file = None ->
  cell2 dt np_sin s =
    let n := v_num_date s in
    let l := v_length s in
    let w := v_width s in
    let pb := amplify dt (v_pbase s) in
    let t1 := trace s ++ [EvRead geom_file (Some "incidenceAngle")] in
    let t2 := t1 ++ [EvRead geom_file (Some "slantRangeDistance")] in
    let t3 := t2 ++ [EvRead dem_err_file None] in
    let t4 := t3 ++ [EvWrite out_file ts_file] in
    let t5 := t4 ++ [EvPrint ("write simulated topographic residual "
                              +:+ "time-series to file " +:+ out_file)] in
    match read_dataset (fs s) geom_file (Some "incidenceAngle") with
    | Raise e => (mkState (fs s) t1 (v_pbase s) n l w, Raise e)
    | Ok inc =>
    match read_dataset (fs s) geom_file (Some "slantRangeDistance") with
    | Raise e => (mkState (fs s) t2 (v_pbase s) n l w, Raise e)
    | Ok rg =>
    match read_dataset (fs s) dem_err_file None with
    | Raise e => (mkState (fs s) t3 pb n l w, Raise e)
    | Ok dem =>
    match topo_resid dt np_sin pb n l w dem rg inc with
    | Raise e => (mkState (fs s) t3 pb n l w, Raise e)
    | Ok ts =>
    match write_timeseries (fs s) ts out_file ts_file with
    | Raise e => (mkState (fs s) t4 pb n l w, Raise e)
    | Ok f' => (mkState f' (t5 ++ [EvPrint "Done."]) pb n l w, Ok tt)
    end end end end end.
Proof.
  intros Ha. run_cell.
  rewrite bool_decide_eq_false_2 by (rewrite Ha; intros [? ?]; discriminate).
  cbn [negb].
  destruct (read_dataset (fs s) geom_file (Some "incidenceAngle"));
    [|reflexivity].
  destruct (read_dataset (fs s) geom_file (Some "slantRangeDistance"));
    [|reflexivity].
  destruct (read_dataset (fs s) dem_err_file None); [|reflexivity].
  destruct (topo_resid _ _ _ _ _ _ _ _ _); [|reflexivity].
  destruct (write_timeseries _ _ _ _); reflexivity.
Qed.

(** Cell 1, call by call. *)
Lemma cell1_run (s : nb_state) :
  cell1 dt s =
    let t := trace s ++ [EvChdir work_dir;
                         EvPrint ("Go to directory: " +:+ work_dir);
                         EvOpen ts_file] in
    match open_timeseries (fs s) ts_file with
    | Raise e =>
        (mkState (fs s) t (v_pbase s) (v_num_date s) (v_length s)
           (v_width s), Raise e)
    | Ok (raw, n, l, w) =>
        match normalize dt raw with
        | Raise e =>
            (mkState (fs s) t raw (v_num_date s) (v_length s) (v_width s),
             Raise e)
        | Ok pn => (mkState (fs s) t pn n l w, Ok tt)
        end
    end.
Proof.
  run_cell. rewrite <- !app_assoc. cbn [app].
  destruct (open_timeseries (fs s) ts_file) as [[[[raw n] l] w]|e];
    [|reflexivity].
  cbn [fs trace v_pbase v_num_date v_length v_width].
  destruct (normalize dt raw); reflexivity.
Qed.

Lemma cell1_inv (s s1 : nb_state) :
  cell1 dt s = (s1, Ok tt) ->
  exists raw n l w pn,
    open_timeseries (fs s) ts_file = Ok (raw, n, l, w) /\
    normalize dt raw = Ok pn /\
    fs s1 = fs s /\ v_pbase s1 = pn /\
    v_num_date s1 = n /\ v_length s1 = l /\ v_width s1 = w /\
    trace s1 = trace s ++ [EvChdir work_dir;
                           EvPrint ("Go to directory: " +:+ work_dir);
                           EvOpen ts_file].
Proof.
  rewrite cell1_run. cbv zeta.
  destruct (open_timeseries (fs s) ts_file) as [[[[raw n] l] w]|e];
    [|discriminate].
  destruct (normalize dt raw) as [pn|e] eqn:Hn; [|discriminate].
  intros [= <-]. exists raw, n, l, w, pn. simpl.
  repeat split; assumption.
Qed.

Lemma written_cube_insert (files : gmap string h5file)
    (b : list spec_float) (n l w : nat) (ts : ndarray3)
    (tr : list event) (pb : list spec_float) (n' l' w' : nat) :
  written_cube
    (mkState (<[out_file := H5Timeseries b n l w ts]> files) tr pb n' l' w')
  = Some ts.
Proof.
  unfold written_cube. cbn [fs]. now rewrite lookup_insert_eq.
Qed.

(** A run of cell 2 that computes and raises nothing: what was read, what
    was computed, and the state it ends in. *)
Lemma cell2_absent_inv (s s' : nb_state) :
  fs s !! out_file = None ->
  cell2 dt np_sin s = (s', Ok tt) ->
  exists inc rg dem ts,
    read_dataset (fs s) geom_file (Some "incidenceAngle") = Ok inc /\
    read_dataset (fs s) geom_file (Some "slantRangeDistance") = Ok rg /\
    read_dataset (fs s) dem_err_file None = Ok dem /\
    topo_resid dt np_sin (amplify dt (v_pbase s)) (v_num_date s)
      (v_length s) (v_width s) dem rg inc = Ok ts /\
    written_cube s' = Some ts /\
    v_pbase s' = amplify dt (v_pbase s) /\
    trace s' =
      trace s ++ [EvRead geom_file (Some "incidenceAngle");
                  EvRead geom_file (Some "slantRangeDistance");
                  EvRead dem_err_file None;
                  EvWrite out_file ts_file;
                  EvPrint ("write simulated topographic residual "
                           +:+ "time-series to file " +:+ out_file);
                  EvPrint "Done."].
Proof.
  intros Ha. rewrite (cell2_absent _ Ha). cbv zeta.
  destruct (read_dataset (fs s) geom_file (Some "incidenceAngle"))
    as [inc|] eqn:Hinc; [|discriminate].
  destruct (read_dataset (fs s) geom_file (Some "slantRangeDistance"))
    as [rg|] eqn:Hrg; [|discriminate].
  destruct (read_dataset (fs s) dem_err_file None) as [dem|] eqn:Hdem;
    [|discriminate].
  destruct (topo_resid _ _ _ _ _ _ _ _ _) as [ts|] eqn:Hts; [|discriminate].
  unfold write_timeseries.
  destruct (fs s !! ts_file) as [[b ? ? ? ?|]|]; try discriminate.
  intros [= <-]. exists inc, rg, dem, ts.
  rewrite written_cube_insert. cbn [v_pbase trace].
  rewrite <- !app_assoc. cbn [app]. repeat split; assumption.
Qed.

End CellFacts.

(* ===================================================================== *)
(** ** Properties of the notebook *)
(* ===================================================================== *)

(** C6: when [sim_topoResid.h5] already exists, cell 2 skips the whole
    read-compute-write block: the file system and [pbase] are unchanged and
    the only thing the cell does is print "Done."; conversely a read or a
    write among the cell's calls means the output file was absent. *)
Theorem existing_output_skips_block (dt : dtype)
    (np_sin : spec_float -> spec_float) (s : nb_state) :
  (is_Some (fs s !! out_file) ->
     (cell2 dt np_sin s).2 = Ok tt /\
     fs (cell2 dt np_sin s).1 = fs s /\
     v_pbase (cell2 dt np_sin s).1 = v_pbase s /\
     new_events (cell2 dt np_sin) s = [EvPrint "Done."]) /\
  (forall ev, ev ∈ new_events (cell2 dt np_sin) s -> is_io ev = true ->
     fs s !! out_file = None).
Proof.
  assert (Hskip : is_Some (fs s !! out_file) ->
            (cell2 dt np_sin s).2 = Ok tt /\
            fs (cell2 dt np_sin s).1 = fs s /\
            v_pbase (cell2 dt np_sin s).1 = v_pbase s /\
            new_events (cell2 dt np_sin) s = [EvPrint "Done."]).
  { intros Hp. unfold new_events. rewrite (cell2_present dt np_sin s Hp).
    cbn [fst snd fs v_pbase trace]. repeat split.
    apply drop_app_length. }
  split; [exact Hskip|].
  intros ev Hin Hio.
  destruct (fs s !! out_file) as [f|] eqn:Hf; [|reflexivity].
  destruct Hskip as (_ & _ & _ & Hev); [eauto|].
  rewrite Hev in Hin. apply list_elem_of_singleton in Hin. subst ev.
  discriminate.
Qed.

Lemma existing_output_skips_block_witness :
  is_Some (fs (boot fs_ex_present) !! out_file) /\
  (cell2 float32 sin_samples (boot fs_ex_present)).2 = Ok tt /\
  fs (cell2 float32 sin_samples (boot fs_ex_present)).1 = fs_ex_present /\
  new_events (cell2 float32 sin_samples) (boot fs_ex_present)
    = [EvPrint "Done."].
Proof.
  assert (Hp : is_Some (fs (boot fs_ex_present) !! out_file)).
  { eexists. vm_compute. reflexivity. }
  split; [exact Hp|].
  destruct (existing_output_skips_block float32 sin_samples
              (boot fs_ex_present)) as [Hskip _].
  destruct (Hskip Hp) as (H1 & H2 & _ & H4).
  repeat split; assumption.
Defined.

(** What a completed run of cell 2 has written, pixel by pixel, in terms of
    the baselines the loop indexes. *)
Lemma cell2_written_pixels (dt : dtype)
    (np_sin : spec_float -> spec_float) (s s' : nb_state) :
  fs s !! out_file = None ->
  cell2 dt np_sin s = (s', Ok tt) ->
  v_pbase s' = amplify dt (v_pbase s) /\
  exists inc rg dem ts,
    read_dataset (fs s) geom_file (Some "incidenceAngle") = Ok inc /\
    read_dataset (fs s) geom_file (Some "slantRangeDistance") = Ok rg /\
    read_dataset (fs s) dem_err_file None = Ok dem /\
    topo_resid dt np_sin (amplify dt (v_pbase s)) (v_num_date s)
      (v_length s) (v_width s) dem rg inc = Ok ts /\
    written_cube s' = Some ts /\
    forall i y x, i < v_num_date s -> y < v_length s -> x < v_width s ->
      exists p, amplify dt (v_pbase s) !! i = Some p /\
        at3 ts i y x = astype_float32 (pixel dt np_sin dem rg inc p y x).
Proof.
  intros Ha Hrun.
  destruct (cell2_absent_inv dt np_sin s s' Ha Hrun)
    as (inc & rg & dem & ts & Hinc & Hrg & Hdem & Hts & Hw & Hpb & _).
  split; [assumption|].
  exists inc, rg, dem, ts. repeat split; try assumption.
  intros i y x Hi Hy Hx.
  exact (topo_resid_pixels dt np_sin _ _ _ _ _ _ _ _ Hts i y x Hi Hy Hx).
Qed.

(** C1 as stated fails: with baselines 3 and 4 the normalized baseline of
    the second date is 1, and at the pixel with DEM error 1, range 1 and
    incidence 90 degrees the formula over the normalized baseline gives 1,
    while the value the notebook writes is 10. *)
Lemma normalized_formula_misses_factor :
  exists ts pn p,
    written_cube (run_notebook float32 sin_samples (boot fs_ex)).1 = Some ts /\
    normalize float32 raw_ex = Ok pn /\
    pn !! 1 = Some p /\
    pixel float32 sin_samples dem_ex rg_ex inc_ex p 0 0 = f32 1 /\
    at3 ts 1 0 0 = f32 10 /\
    at3 ts 1 0 0 <> pixel float32 sin_samples dem_ex rg_ex inc_ex p 0 0.
Proof.
  eexists _, _, _.
  split; [vm_compute; reflexivity|].
  split; [vm_compute; reflexivity|].
  split; [vm_compute; reflexivity|].
  split; [vm_compute; reflexivity|].
  split; [vm_compute; reflexivity|].
  vm_compute. discriminate.
Qed.

(** C1 (amended): for every date [i] and pixel [(y, x)], the value written
    is [dem_err[y,x] * pbase[i] / (rg_dist[y,x] * sin(inc_angle[y,x] * pi
    / 180))] stored as float32, where [pbase] is the array as it stands
    when the loop runs: the normalized baselines multiplied by 10. *)
Theorem pixel_formula_at_loop_time (dt : dtype)
    (np_sin : spec_float -> spec_float) (s s' : nb_state) :
  fs s !! out_file = None ->
  cell2 dt np_sin s = (s', Ok tt) ->
  v_pbase s' = amplify dt (v_pbase s) /\
  exists inc_angle rg_dist dem_err ts_data,
    read_dataset (fs s) geom_file (Some "incidenceAngle") = Ok inc_angle /\
    read_dataset (fs s) geom_file (Some "slantRangeDistance") = Ok rg_dist /\
    read_dataset (fs s) dem_err_file None = Ok dem_err /\
    written_cube s' = Some ts_data /\
    forall i y x, i < v_num_date s -> y < v_length s -> x < v_width s ->
      exists p, v_pbase s' !! i = Some p /\
        at3 ts_data i y x =
          astype_float32
            (fdiv dt (fmul dt (bat dem_err y x) p)
               (fmul dt (bat rg_dist y x)
                  (np_sin (fdiv dt (fmul dt (bat inc_angle y x) (np_pi dt))
                             (lit_180 dt))))).
Proof.
  intros Ha Hrun.
  destruct (cell2_written_pixels dt np_sin s s' Ha Hrun)
    as (Hpb & inc & rg & dem & ts & Hinc & Hrg & Hdem & _ & Hw & Hpix).
  split; [assumption|].
  exists inc, rg, dem, ts. repeat split; try assumption.
  intros i y x Hi Hy Hx. rewrite Hpb. exact (Hpix i y x Hi Hy Hx).
Qed.

Lemma pixel_formula_at_loop_time_witness :
  fs (cell1 float32 (boot fs_ex)).1 !! out_file = None /\
  cell2 float32 sin_samples (cell1 float32 (boot fs_ex)).1 =
    ((cell2 float32 sin_samples (cell1 float32 (boot fs_ex)).1).1, Ok tt) /\
  v_pbase (cell2 float32 sin_samples (cell1 float32 (boot fs_ex)).1).1 =
    amplify float32 (v_pbase (cell1 float32 (boot fs_ex)).1).
Proof.
  assert (Ha : fs (cell1 float32 (boot fs_ex)).1 !! out_file = None)
    by (vm_compute; reflexivity).
  assert (Hrun : cell2 float32 sin_samples (cell1 float32 (boot fs_ex)).1 =
            ((cell2 float32 sin_samples (cell1 float32 (boot fs_ex)).1).1,
             Ok tt))
    by (vm_compute; reflexivity).
  split; [exact Ha|]. split; [exact Hrun|].
  exact (proj1 (pixel_formula_at_loop_time float32 sin_samples _ _ Ha Hrun)).
Defined.

Lemma normalize_inv (dt : dtype) (raw pn : list spec_float) :
  normalize dt raw = Ok pn ->
  exists r0, raw !! 0 = Some r0 /\ pn = (fun v => fsub dt v r0) <$> raw.
Proof.
  unfold normalize, getitem.
  destruct (raw !! 0) as [r0|]; simpl; [|discriminate].
  intros [= <-]. eauto.
Qed.




(** C4 as stated fails in two ways.  An infinite first baseline normalizes
    to NaN, not to zero; and with finite baselines, a NaN DEM error at a
    pixel whose denominator is non-zero and finite makes the first-date
    value NaN, not zero. *)
Lemma first_epoch_not_always_zero :
  (exists pn p0, normalize float32 raw_inf_ex = Ok pn /\
                 pn !! 0 = Some p0 /\ is_zero p0 = false) /\
  (exists ts,
     written_cube (run_notebook float32 sin_samples (boot fs_nan_ex)).1
       = Some ts /\
     is_regular (den_at float32 sin_samples rg_ex inc_ex 0 0) = true /\
     at3 ts 0 0 0 = S754_nan /\
     is_zero (at3 ts 0 0 0) = false).
Proof.
  split.
  - eexists _, _. split; [vm_compute; reflexivity|].
    split; [vm_compute; reflexivity|]. reflexivity.
  - eexists. split; [vm_compute; reflexivity|].
    split; [vm_compute; reflexivity|].
    split; vm_compute; reflexivity.
Qed.

Lemma amplify_zero (dt : dtype) (z : spec_float) :
  is_zero z = true -> is_zero (fmul dt z (lit_10 dt)) = true.
Proof.
  destruct (lit_10_regular dt) as (m & e & ->).
  destruct z; try discriminate; reflexivity.
Qed.

(** C4 (amended): when the first baseline is finite, the first element of
    [pbase] after [pbase -= pbase[0]] is zero, and the first-date slice is
    zero at every pixel where the DEM error is finite and the denominator
    is non-zero and finite. *)
Theorem first_epoch_zero (dt : dtype) (np_sin : spec_float -> spec_float)
    (s0 s1 s2 : nb_state) (pbase_raw : list spec_float) (n l w : nat)
    (r0 : spec_float) :
  cell1 dt s0 = (s1, Ok tt) ->
  fs s0 !! out_file = None ->
  cell2 dt np_sin s1 = (s2, Ok tt) ->
  open_timeseries (fs s0) ts_file = Ok (pbase_raw, n, l, w) ->
  pbase_raw !! 0 = Some r0 ->
  isfinite r0 = true ->
  v_pbase s1 !! 0 = Some (S754_zero false) /\
  exists inc_angle rg_dist dem_err ts_data,
    read_dataset (fs s0) geom_file (Some "incidenceAngle") = Ok inc_angle /\
    read_dataset (fs s0) geom_file (Some "slantRangeDistance") = Ok rg_dist /\
    read_dataset (fs s0) dem_err_file None = Ok dem_err /\
    written_cube s2 = Some ts_data /\
    forall y x, 0 < n -> y < l -> x < w ->
      isfinite (bat dem_err y x) = true ->
      is_regular (den_at dt np_sin rg_dist inc_angle y x) = true ->
      is_zero (at3 ts_data 0 y x) = true.
Proof.
  intros H1 Ha H2 Hopen H0 Hfin.
  destruct (cell1_inv dt s0 s1 H1)
    as (raw & n' & l' & w' & pn & Hopen' & Hnorm & Hfs & Hpb & Hn & Hl & Hw
        & _).
  rewrite Hopen in Hopen'. injection Hopen' as <- <- <- <-.
  destruct (normalize_inv _ _ _ Hnorm) as (r0' & H0' & Hpn).
  rewrite H0 in H0'. injection H0' as <-.
  assert (Hfirst : pn !! 0 = Some (S754_zero false)).
  { rewrite Hpn, list_lookup_fmap, H0. simpl. f_equal.
    unfold fsub. now apply SFsub_diag. }
  split; [rewrite Hpb; exact Hfirst|].
  rewrite <- Hfs in Ha.
  destruct (cell2_written_pixels dt np_sin s1 s2 Ha H2)
    as (_ & inc & rg & dem & ts & Hinc & Hrg & Hdem & _ & Hcube & Hpix).
  rewrite Hfs in Hinc, Hrg, Hdem.
  exists inc, rg, dem, ts. repeat split; try assumption.
  intros y x Hn0 Hy Hx Hd Hden.
  destruct (Hpix 0 y x) as (p & Hp & ->); [lia..|].
  rewrite Hpb in Hp. unfold amplify in Hp.
  rewrite list_lookup_fmap, Hfirst in Hp.
  change (Some (fmul dt (S754_zero false) (lit_10 dt)) = Some p) in Hp.
  injection Hp as <-.
  apply astype_float32_zero. unfold pixel, fdiv.
  apply SFdiv_zero_l; [|exact Hden].
  unfold fmul at 1. apply SFmul_zero_r; [exact Hd|].
  exact (amplify_zero dt (S754_zero false) eq_refl).
Qed.

Lemma first_epoch_zero_witness :
  cell1 float32 (boot fs_ex) = ((cell1 float32 (boot fs_ex)).1, Ok tt) /\
  fs (boot fs_ex) !! out_file = None /\
  cell2 float32 sin_samples (cell1 float32 (boot fs_ex)).1 =
    ((cell2 float32 sin_samples (cell1 float32 (boot fs_ex)).1).1, Ok tt) /\
  open_timeseries (fs (boot fs_ex)) ts_file = Ok (raw_ex, 2, 1, 2) /\
  raw_ex !! 0 = Some (f32 3) /\
  isfinite (f32 3) = true /\
  isfinite (bat dem_ex 0 0) = true /\
  is_regular (den_at float32 sin_samples rg_ex inc_ex 0 0) = true /\
  v_pbase (cell1 float32 (boot fs_ex)).1 !! 0 = Some (S754_zero false) /\
  exists ts,
    written_cube (cell2 float32 sin_samples (cell1 float32 (boot fs_ex)).1).1
      = Some ts /\
    is_zero (at3 ts 0 0 0) = true.
Proof.
  assert (H1 : cell1 float32 (boot fs_ex)
               = ((cell1 float32 (boot fs_ex)).1, Ok tt))
    by (vm_compute; reflexivity).
  assert (Ha : fs (boot fs_ex) !! out_file = None)
    by (vm_compute; reflexivity).
  assert (H2 : cell2 float32 sin_samples (cell1 float32 (boot fs_ex)).1 =
               ((cell2 float32 sin_samples (cell1 float32 (boot fs_ex)).1).1,
                Ok tt))
    by (vm_compute; reflexivity).
  assert (Ho : open_timeseries (fs (boot fs_ex)) ts_file
               = Ok (raw_ex, 2, 1, 2)) by (vm_compute; reflexivity).
  assert (H0 : raw_ex !! 0 = Some (f32 3)) by reflexivity.
  assert (Hf : isfinite (f32 3) = true) by (vm_compute; reflexivity).
  assert (Hd : isfinite (bat dem_ex 0 0) = true) by (vm_compute; reflexivity).
  assert (Hden : is_regular (den_at float32 sin_samples rg_ex inc_ex 0 0)
                 = true) by (vm_compute; reflexivity).
  do 8 (split; [assumption|]).
  destruct (first_epoch_zero float32 sin_samples _ _ _ _ _ _ _ _
              H1 Ha H2 Ho H0 Hf)
    as (Hz & inc & rg & dem & ts & Hinc & Hrg & Hdem & Hcube & Hpix).
  split; [exact Hz|].
  assert (Ei : read_dataset (fs (boot fs_ex)) geom_file
                 (Some "incidenceAngle") = Ok inc_ex)
    by (vm_compute; reflexivity).
  rewrite Ei in Hinc. injection Hinc as <-.
  assert (Er : read_dataset (fs (boot fs_ex)) geom_file
                 (Some "slantRangeDistance") = Ok rg_ex)
    by (vm_compute; reflexivity).
  rewrite Er in Hrg. injection Hrg as <-.
  assert (Ed : read_dataset (fs (boot fs_ex)) dem_err_file None = Ok dem_ex)
    by (vm_compute; reflexivity).
  rewrite Ed in Hdem. injection Hdem as <-.
  exists ts. split; [assumption|].
  apply Hpix; [lia..|assumption|assumption].
Defined.

Lemma table_shape (r c : nat) (f : nat -> nat -> spec_float) :
  length (table r c f) = r /\
  forall row, row ∈ table r c f -> length row = c.
Proof.
  split; [apply tabulate_length|].
  intros row Hin. unfold table, tabulate in Hin.
  apply list_elem_of_fmap in Hin as (y & -> & _).
  apply tabulate_length.
Qed.

(** C5 as stated fails: [length] and [width] come from the reference
    time-series, not from the geometry rasters.  With rasters of a single
    cell and a declared size of 1 x 2 the run completes, and the stored
    slices are 1 x 2 while the rasters are 1 x 1. *)
Lemma slice_shape_is_not_raster_shape :
  exists ts inc,
    (run_notebook float32 sin_samples (boot fs_bcast_ex)).2 = Ok tt /\
    written_cube (run_notebook float32 sin_samples (boot fs_bcast_ex)).1
      = Some ts /\
    read_dataset fs_bcast_ex geom_file (Some "incidenceAngle") = Ok inc /\
    (dates ts, len ts, wid ts) = (2, 1, 2) /\
    (rows inc, cols inc) = (1, 1) /\
    (rows inc, cols inc) <> (len ts, wid ts).
Proof.
  eexists _, _.
  split; [vm_compute; reflexivity|].
  split; [vm_compute; reflexivity|].
  split; [vm_compute; reflexivity|].
  split; [reflexivity|]. split; [reflexivity|].
  simpl. discriminate.
Qed.

(** C5 (amended): the array written is a float32 array indexed date x row x
    column of shape [(num_date, length, width)], all three taken from the
    reference time-series; every element is the float32 value of the
    element-wise expression for the baseline of its date, the rasters being
    broadcast to the slice shape (each raster axis has the slice's extent
    or extent 1). *)
Theorem output_shape_and_elements (dt : dtype)
    (np_sin : spec_float -> spec_float) (s0 s1 s2 : nb_state) :
  cell1 dt s0 = (s1, Ok tt) ->
  fs s0 !! out_file = None ->
  cell2 dt np_sin s1 = (s2, Ok tt) ->
  exists pbase_raw num_date length width inc_angle rg_dist dem_err ts_data,
    open_timeseries (fs s0) ts_file
      = Ok (pbase_raw, num_date, length, width) /\
    read_dataset (fs s0) geom_file (Some "incidenceAngle") = Ok inc_angle /\
    read_dataset (fs s0) geom_file (Some "slantRangeDistance") = Ok rg_dist /\
    read_dataset (fs s0) dem_err_file None = Ok dem_err /\
    written_cube s2 = Some ts_data /\
    (dates ts_data, len ts_data, wid ts_data) = (num_date, length, width) /\
    List.length (slices ts_data) = num_date /\
    (forall i, i < num_date ->
       exists p slice,
         v_pbase s2 !! i = Some p /\
         slices ts_data !! i = Some slice /\
         List.length slice = length /\
         (forall row, row ∈ slice -> List.length row = width) /\
         forall y x, y < length -> x < width ->
           at3 ts_data i y x =
             astype_float32 (pixel dt np_sin dem_err rg_dist inc_angle p y x))
    /\
    (0 < num_date ->
       (fits (rows dem_err) length = true /\
        fits (cols dem_err) width = true) /\
       (fits (rows rg_dist) length = true /\
        fits (cols rg_dist) width = true) /\
       (fits (rows inc_angle) length = true /\
        fits (cols inc_angle) width = true)).
Proof.
  intros H1 Ha H2.
  destruct (cell1_inv dt s0 s1 H1)
    as (raw & n & l & w & pn & Hopen & Hnorm & Hfs & Hpb & Hn & Hl & Hw & _).
  rewrite <- Hfs in Ha.
  destruct (cell2_absent_inv dt np_sin s1 s2 Ha H2)
    as (inc & rg & dem & ts & Hinc & Hrg & Hdem & Hts & Hcube & Hamp & _).
  rewrite Hfs in Hinc, Hrg, Hdem. rewrite Hn, Hl, Hw in Hts.
  destruct (topo_resid_slices dt np_sin _ _ _ _ _ _ _ _ Hts)
    as [(Hd & Hl' & Hw' & Hlen) Hs].
  exists raw, n, l, w, inc, rg, dem, ts.
  do 5 (split; [assumption|]).
  split; [congruence|]. split; [assumption|]. split.
  - intros i Hi. destruct (Hs i Hi) as (p & Hp & Hsl).
    destruct (table_shape l w (fun y x =>
                astype_float32 (pixel dt np_sin dem rg inc p y x)))
      as [Hrows Hcols].
    eexists p, _. rewrite Hamp.
    split; [exact Hp|]. split; [exact Hsl|].
    split; [exact Hrows|]. split; [exact Hcols|].
    intros y x Hy Hx. unfold at3. rewrite Hsl. simpl.
    now apply at_row_table.
  - intros Hpos. eapply topo_resid_fits; eassumption.
Qed.

Lemma output_shape_and_elements_witness :
  cell1 float32 (boot fs_bcast_ex)
    = ((cell1 float32 (boot fs_bcast_ex)).1, Ok tt) /\
  fs (boot fs_bcast_ex) !! out_file = None /\
  cell2 float32 sin_samples (cell1 float32 (boot fs_bcast_ex)).1 =
    ((cell2 float32 sin_samples (cell1 float32 (boot fs_bcast_ex)).1).1,
     Ok tt) /\
  exists ts,
    written_cube
      (cell2 float32 sin_samples (cell1 float32 (boot fs_bcast_ex)).1).1
      = Some ts /\
    (dates ts, len ts, wid ts) = (2, 1, 2).
Proof.
  assert (H1 : cell1 float32 (boot fs_bcast_ex)
               = ((cell1 float32 (boot fs_bcast_ex)).1, Ok tt))
    by (vm_compute; reflexivity).
  assert (Ha : fs (boot fs_bcast_ex) !! out_file = None)
    by (vm_compute; reflexivity).
  assert (H2 : cell2 float32 sin_samples (cell1 float32 (boot fs_bcast_ex)).1
               = ((cell2 float32 sin_samples
                     (cell1 float32 (boot fs_bcast_ex)).1).1, Ok tt))
    by (vm_compute; reflexivity).
  split; [exact H1|]. split; [exact Ha|]. split; [exact H2|].
  destruct (output_shape_and_elements float32 sin_samples _ _ _ H1 Ha H2)
    as (raw & n & l & w & inc & rg & dem & ts
        & Hopen & _ & _ & _ & Hcube & Hshape & _).
  assert (Eo : open_timeseries (fs (boot fs_bcast_ex)) ts_file
               = Ok (raw_ex, 2, 1, 2)) by (vm_compute; reflexivity).
  rewrite Eo in Hopen. injection Hopen as <- <- <- <-.
  exists ts. split; assumption.
Defined.

(** The outcome of the computing block as a function of what it reads. *)
Lemma simulate_result (dt : dtype) (np_sin : spec_float -> spec_float)
    (s : nb_state) :
  (simulate dt np_sin s).2 =
    rbind (read_dataset (fs s) geom_file (Some "incidenceAngle")) (fun inc =>
    rbind (read_dataset (fs s) geom_file (Some "slantRangeDistance"))
      (fun rg =>
    rbind (read_dataset (fs s) dem_err_file None) (fun dem =>
    topo_resid dt np_sin (amplify dt (v_pbase s)) (v_num_date s)
      (v_length s) (v_width s) dem rg inc))).
Proof.
  run_cell.
  destruct (read_dataset (fs s) geom_file (Some "incidenceAngle"));
    [|reflexivity].
  destruct (read_dataset (fs s) geom_file (Some "slantRangeDistance"));
    [|reflexivity].
  destruct (read_dataset (fs s) dem_err_file None); reflexivity.
Qed.

(** C9: the computation is deterministic in its inputs.  Two kernels that
    agree on [pbase], on the dimensions and on the three rasters read
    compute the same array (or raise the same exception), whatever else
    differs between them (other files, what was printed or called before);
    when both go on to write, the cubes written are identical. *)
Theorem same_inputs_same_array (dt : dtype)
    (np_sin : spec_float -> spec_float) (s1 s2 : nb_state) :
  v_pbase s1 = v_pbase s2 ->
  v_num_date s1 = v_num_date s2 ->
  v_length s1 = v_length s2 ->
  v_width s1 = v_width s2 ->
  read_dataset (fs s1) geom_file (Some "incidenceAngle")
    = read_dataset (fs s2) geom_file (Some "incidenceAngle") ->
  read_dataset (fs s1) geom_file (Some "slantRangeDistance")
    = read_dataset (fs s2) geom_file (Some "slantRangeDistance") ->
  read_dataset (fs s1) dem_err_file None
    = read_dataset (fs s2) dem_err_file None ->
  (simulate dt np_sin s1).2 = (simulate dt np_sin s2).2 /\
  forall s1' s2',
    fs s1 !! out_file = None -> fs s2 !! out_file = None ->
    cell2 dt np_sin s1 = (s1', Ok tt) ->
    cell2 dt np_sin s2 = (s2', Ok tt) ->
    written_cube s1' = written_cube s2'.
Proof.
  intros Hpb Hn Hl Hw Hinc Hrg Hdem. split.
  - rewrite !simulate_result. now rewrite Hpb, Hn, Hl, Hw, Hinc, Hrg, Hdem.
  - intros s1' s2' Ha1 Ha2 Hc1 Hc2.
    destruct (cell2_absent_inv dt np_sin s1 s1' Ha1 Hc1)
      as (inc1 & rg1 & dem1 & ts1 & Hi1 & Hg1 & Hd1 & Ht1 & Hcube1 & _).
    destruct (cell2_absent_inv dt np_sin s2 s2' Ha2 Hc2)
      as (inc2 & rg2 & dem2 & ts2 & Hi2 & Hg2 & Hd2 & Ht2 & Hcube2 & _).
    rewrite Hinc, Hi2 in Hi1. injection Hi1 as <-.
    rewrite Hrg, Hg2 in Hg1. injection Hg1 as <-.
    rewrite Hdem, Hd2 in Hd1. injection Hd1 as <-.
    rewrite Hpb, Hn, Hl, Hw, Ht2 in Ht1. injection Ht1 as <-.
    now rewrite Hcube1, Hcube2.
Qed.

Lemma same_inputs_same_array_witness :
  (simulate float32 sin_samples (cell1 float32 (boot fs_ex)).1).2 =
  (simulate float32 sin_samples
     (cell1 float32 (mkState fs_ex_extra [EvPrint "earlier output"]
                       [] 0 0 0)).1).2.
Proof.
  apply (same_inputs_same_array float32 sin_samples
           (cell1 float32 (boot fs_ex)).1
           (cell1 float32 (mkState fs_ex_extra [EvPrint "earlier output"]
                             [] 0 0 0)).1);
    vm_compute; reflexivity.
Defined.

(** The calls of a complete run, in order. *)
Lemma run_notebook_events (dt : dtype) (np_sin : spec_float -> spec_float)
    (s s' : nb_state) :
  run_notebook dt np_sin s = (s', Ok tt) ->
  new_events (run_notebook dt np_sin) s =
    [EvChdir work_dir; EvPrint ("Go to directory: " +:+ work_dir);
     EvOpen ts_file] ++
    (if bool_decide (is_Some (fs s !! out_file)) then []
     else [EvRead geom_file (Some "incidenceAngle");
           EvRead geom_file (Some "slantRangeDistance");
           EvRead dem_err_file None;
           EvWrite out_file ts_file;
           EvPrint ("write simulated topographic residual "
                    +:+ "time-series to file " +:+ out_file)]) ++
    [EvPrint "Done."; EvShell ["view.py"; out_file; "-n"; "4"]].
Proof.
  intros Hrun. unfold new_events. rewrite Hrun. cbn [fst].
  unfold run_notebook, bind in Hrun.
  destruct (cell1 dt s) as [s1 [[]|]] eqn:H1; [|discriminate].
  destruct (cell2 dt np_sin s1) as [s2 [[]|]] eqn:H2; [|discriminate].
  unfold cell3, shell, emit in Hrun. injection Hrun as <-. cbn [trace].
  destruct (cell1_inv dt s s1 H1)
    as (raw & n & l & w & pn & _ & _ & Hfs & _ & _ & _ & _ & Htr).
  rewrite <- Hfs.
  destruct (fs s1 !! out_file) as [f|] eqn:Hf.
  - rewrite cell2_present in H2 by eauto. injection H2 as <-. cbn [trace].
    rewrite bool_decide_eq_true_2 by eauto.
    rewrite Htr, <- !app_assoc. apply drop_app_length.
  - destruct (cell2_absent_inv dt np_sin s1 s2 Hf H2)
      as (_ & _ & _ & _ & _ & _ & _ & _ & _ & _ & Htr2).
    rewrite bool_decide_eq_false_2 by (intros [? ?]; discriminate).
    rewrite Htr2, Htr, <- !app_assoc. apply drop_app_length.
Qed.

(** C10 as stated fails: a run that finds [sim_topoResid.h5] in place
    completes and plots, but writes no file. *)
Lemma rerun_writes_no_file :
  (run_notebook float32 sin_samples (boot fs_ex_present)).2 = Ok tt /\
  count_writes
    (new_events (run_notebook float32 sin_samples) (boot fs_ex_present)) = 0 /\
  count_shells
    (new_events (run_notebook float32 sin_samples) (boot fs_ex_present)) = 1.
Proof. repeat split; vm_compute; reflexivity. Qed.

(** C10 (amended): a run that completes writes the output file exactly once
    when [sim_topoResid.h5] did not exist and not at all when it did; no
    other file is written; and the run ends by shelling out once, to
    [view.py sim_topoResid.h5 -n 4]. *)
Theorem run_writes_at_most_once_then_plots (dt : dtype)
    (np_sin : spec_float -> spec_float) (s s' : nb_state) :
  run_notebook dt np_sin s = (s', Ok tt) ->
  count_writes (new_events (run_notebook dt np_sin) s)
    = (if bool_decide (is_Some (fs s !! out_file)) then 0 else 1) /\
  (forall path ref, EvWrite path ref ∈ new_events (run_notebook dt np_sin) s ->
     path = "sim_topoResid.h5") /\
  count_shells (new_events (run_notebook dt np_sin) s) = 1 /\
  last (trace s') = Some (EvShell ["view.py"; "sim_topoResid.h5"; "-n"; "4"]).
Proof.
  intros Hrun. pose proof (run_notebook_events dt np_sin s s' Hrun) as Hev.
  assert (Hlast : last (trace s')
                  = Some (EvShell ["view.py"; "sim_topoResid.h5"; "-n"; "4"])).
  { unfold run_notebook, bind in Hrun.
    destruct (cell1 dt s) as [s1 [[]|]]; [|discriminate].
    destruct (cell2 dt np_sin s1) as [s2 [[]|]]; [|discriminate].
    unfold cell3, shell, emit in Hrun. injection Hrun as <-. cbn [trace].
    apply last_snoc. }
  rewrite Hev.
  destruct (bool_decide (is_Some (fs s !! out_file))).
  - repeat split; try assumption.
    intros path ref Hin. repeat (apply elem_of_cons in Hin as [Hin|Hin];
                                 [discriminate|]).
    inversion Hin.
  - repeat split; try assumption.
    intros path ref Hin.
    repeat (apply elem_of_cons in Hin as [Hin|Hin];
            [try discriminate; injection Hin as -> _; reflexivity|]).
    inversion Hin.
Qed.

Lemma run_writes_at_most_once_then_plots_witness :
  run_notebook float32 sin_samples (boot fs_ex)
    = ((run_notebook float32 sin_samples (boot fs_ex)).1, Ok tt) /\
  count_writes (new_events (run_notebook float32 sin_samples) (boot fs_ex))
    = (if bool_decide (is_Some (fs (boot fs_ex) !! out_file)) then 0 else 1).
Proof.
  assert (Hrun : run_notebook float32 sin_samples (boot fs_ex)
                 = ((run_notebook float32 sin_samples (boot fs_ex)).1, Ok tt))
    by (vm_compute; reflexivity).
  split; [exact Hrun|].
  exact (proj1 (run_writes_at_most_once_then_plots float32 sin_samples
                  _ _ Hrun)).
Defined.

(* ===================================================================== *)
(** ** Further properties: outcomes of the array computation *)
(* ===================================================================== *)

Section LoopOutcome.

Variable dt : dtype.
Variable np_sin : spec_float -> spec_float.

(** The loop body either produces a value of the broadcast shape or
    raises [ValueError]; the baseline plays no part in which. *)
Lemma residual_slice_outcome (dem rg inc : ndarray2) (p : spec_float) :
  match slice_shape dem rg inc with
  | Some (r, c) =>
      exists v, residual_slice dt np_sin dem rg inc p = Ok v /\
                rows v = r /\ cols v = c
  | None => residual_slice dt np_sin dem rg inc p = Raise ValueError
  end.
Proof.
  unfold slice_shape, residual_slice, denominator, zip2d.
  cbn [rows cols map2d radians build2].
  destruct (broadcast_dim (rows rg) (rows inc)) as [r2|]; [|reflexivity].
  destruct (broadcast_dim (cols rg) (cols inc)) as [c2|]; [|reflexivity].
  cbn [rbind rows cols build2].
  destruct (broadcast_dim (rows dem) r2) as [r|]; [|reflexivity].
  destruct (broadcast_dim (cols dem) c2) as [c|]; [|reflexivity].
  eexists. split; [reflexivity|]. split; reflexivity.
Qed.

(** One iteration with a baseline available and shapes that fit. *)
Lemma epoch_loop_step (i : nat) (rest : list nat) (pb : list spec_float)
    (dem rg inc : ndarray2) (t : ndarray3) :
  loop_shapes_ok (len t) (wid t) dem rg inc = true ->
  i < dates t -> i < length pb ->
  exists t',
    dates t' = dates t /\ len t' = len t /\ wid t' = wid t /\
    epoch_loop dt np_sin (i :: rest) pb dem rg inc t =
    epoch_loop dt np_sin rest pb dem rg inc t'.
Proof.
  intros Hok Hi Hp. unfold loop_shapes_ok in Hok.
  destruct (lookup_lt_is_Some_2 pb i Hp) as [p Hpi].
  pose proof (residual_slice_outcome dem rg inc p) as Hres.
  destruct (slice_shape dem rg inc) as [[r c]|]; [|discriminate].
  destruct Hres as (v & Hv & Hr & Hc).
  apply andb_true_iff in Hok as [Hfr Hfc].
  cbn [epoch_loop]. unfold getitem. rewrite Hpi. cbn [rbind]. rewrite Hv.
  cbn [rbind].
  rewrite setitem_slice_ok by (rewrite ?Hr, ?Hc; assumption).
  cbn [rbind].
  exists (mk3 (dates t) (len t) (wid t)
            (<[i := table (len t) (wid t)
                      (fun y x => astype_float32 (bat v y x))]> (slices t))).
  repeat split.
Qed.

(** Running out of baselines before running out of dates. *)
Lemma epoch_loop_short (pb : list spec_float) (dem rg inc : ndarray2) :
  forall m k t,
    loop_shapes_ok (len t) (wid t) dem rg inc = true ->
    k <= length pb -> length pb < k + m -> k + m <= dates t ->
    epoch_loop dt np_sin (seq k m) pb dem rg inc t = Raise IndexError.
Proof.
  induction m as [|m IH]; intros k t Hok Hk Hlt Hd; [lia|].
  cbn [seq]. destruct (decide (k < length pb)) as [Hin|Hout].
  - destruct (epoch_loop_step k (seq (S k) m) pb dem rg inc t Hok)
      as (t' & Hd' & Hl' & Hw' & ->); [lia|assumption|].
    apply IH; rewrite ?Hl', ?Hw', ?Hd'; try assumption; lia.
  - cbn [epoch_loop]. unfold getitem.
    rewrite lookup_ge_None_2 by lia. reflexivity.
Qed.

(** The first iteration with shapes that do not fit. *)
Lemma epoch_loop_misfit (rest : list nat) (pb : list spec_float)
    (dem rg inc : ndarray2) (t : ndarray3) (p : spec_float) :
  loop_shapes_ok (len t) (wid t) dem rg inc = false ->
  0 < dates t -> pb !! 0 = Some p ->
  epoch_loop dt np_sin (0 :: rest) pb dem rg inc t = Raise ValueError.
Proof.
  intros Hbad Hd Hp. unfold loop_shapes_ok in Hbad.
  pose proof (residual_slice_outcome dem rg inc p) as Hres.
  cbn [epoch_loop]. unfold getitem. rewrite Hp. cbn [rbind].
  destruct (slice_shape dem rg inc) as [[r c]|].
  - destruct Hres as (v & -> & Hr & Hc). cbn [rbind].
    unfold setitem_slice.
    destruct (Nat.ltb_spec 0 (dates t)); [|lia]. cbn [negb].
    rewrite Hr, Hc, Hbad. reflexivity.
  - rewrite Hres. reflexivity.
Qed.

End LoopOutcome.

(** Every way the array computation can end, by dates, baselines and
    shapes. *)
Lemma topo_resid_cases (dt : dtype) (np_sin : spec_float -> spec_float)
    (pb : list spec_float) (n l w : nat) (dem rg inc : ndarray2) :
  (n = 0 ->
     topo_resid dt np_sin pb n l w dem rg inc = Ok (np_zeros 0 l w)) /\
  (0 < n -> pb = [] ->
     topo_resid dt np_sin pb n l w dem rg inc = Raise IndexError) /\
  (0 < n -> pb <> [] -> loop_shapes_ok l w dem rg inc = false ->
     topo_resid dt np_sin pb n l w dem rg inc = Raise ValueError) /\
  (loop_shapes_ok l w dem rg inc = true -> length pb < n ->
     topo_resid dt np_sin pb n l w dem rg inc = Raise IndexError) /\
  (loop_shapes_ok l w dem rg inc = true -> n <= length pb ->
     exists ts, topo_resid dt np_sin pb n l w dem rg inc = Ok ts).
Proof.
  unfold topo_resid. repeat split.
  - intros ->. reflexivity.
  - intros Hn ->. destruct n; [lia|]. reflexivity.
  - intros Hn Hpb Hbad. destruct n; [lia|]. cbn [seq].
    destruct pb as [|p pb']; [congruence|].
    apply (epoch_loop_misfit dt np_sin _ _ _ _ _ _ p).
    + exact Hbad.
    + cbn. lia.
    + reflexivity.
  - intros Hok Hlt.
    apply epoch_loop_short; cbn; try assumption; lia.
  - intros Hok Hle. unfold loop_shapes_ok in Hok.
    pose proof (residual_slice_outcome dt np_sin dem rg inc S754_nan) as Hres.
    destruct (slice_shape dem rg inc) as [[r c]|]; [|discriminate].
    destruct Hres as (v & Hv & Hr & Hc).
    apply andb_true_iff in Hok as [Hfr Hfc].
    apply (topo_resid_total dt np_sin pb n l w dem rg inc v S754_nan);
      rewrite ?Hr, ?Hc; assumption.
Qed.

(** X1: the array computation of lines 78-80 returns an array exactly when
    there is no date at all, or there is a baseline for every date and the
    broadcast of the three rasters fits the slice shape; with no date the
    result is the empty cube whatever the rasters are. *)
Theorem topo_resid_succeeds_iff (dt : dtype)
    (np_sin : spec_float -> spec_float) (pb : list spec_float) (n l w : nat)
    (dem_err rg_dist inc_angle : ndarray2) :
  ((exists ts, topo_resid dt np_sin pb n l w dem_err rg_dist inc_angle = Ok ts)
   <-> n = 0 \/
       (n <= length pb /\
        loop_shapes_ok l w dem_err rg_dist inc_angle = true)) /\
  topo_resid dt np_sin pb 0 l w dem_err rg_dist inc_angle
    = Ok (np_zeros 0 l w).
Proof.
  destruct (topo_resid_cases dt np_sin pb n l w dem_err rg_dist inc_angle)
    as (H0 & Hempty & Hbad & Hshort & Hok).
  split; [|reflexivity]. split.
  - intros [ts Hts].
    destruct (decide (n = 0)) as [|Hn]; [now left|right].
    destruct (loop_shapes_ok l w dem_err rg_dist inc_angle) eqn:Hs.
    + split; [|reflexivity].
      destruct (decide (n <= length pb)) as [|Hlt]; [assumption|].
      rewrite Hshort in Hts by (reflexivity || lia). discriminate.
    + destruct pb as [|p pb'].
      * rewrite Hempty in Hts by (reflexivity || lia). discriminate.
      * rewrite Hbad in Hts by (congruence || lia). discriminate.
  - intros [->|[Hle Hs]]; [eexists; reflexivity|].
    now apply Hok.
Qed.

(** X2: which exception the array computation raises.  With at least one
    date, an empty baseline array gives [IndexError] before any shape is
    looked at; rasters that do not broadcast to the slice shape give
    [ValueError] at the first date; and with fitting shapes but fewer
    baselines than dates the loop runs until the baselines are exhausted
    and then raises [IndexError]. *)
Theorem topo_resid_exception (dt : dtype)
    (np_sin : spec_float -> spec_float) (pb : list spec_float) (n l w : nat)
    (dem_err rg_dist inc_angle : ndarray2) :
  0 < n ->
  (pb = [] ->
     topo_resid dt np_sin pb n l w dem_err rg_dist inc_angle
       = Raise IndexError) /\
  (pb <> [] -> loop_shapes_ok l w dem_err rg_dist inc_angle = false ->
     topo_resid dt np_sin pb n l w dem_err rg_dist inc_angle
       = Raise ValueError) /\
  (loop_shapes_ok l w dem_err rg_dist inc_angle = true -> length pb < n ->
     topo_resid dt np_sin pb n l w dem_err rg_dist inc_angle
       = Raise IndexError).
Proof.
  intros Hn.
  destruct (topo_resid_cases dt np_sin pb n l w dem_err rg_dist inc_angle)
    as (_ & Hempty & Hbad & Hshort & _).
  auto.
Qed.

Lemma topo_resid_exception_witness :
  topo_resid float32 sin_samples [] 2 1 2 dem_ex rg_ex inc_ex
    = Raise IndexError /\
  topo_resid float32 sin_samples [f32 0; f32 10] 2 1 2 dem_ex rg_ex
    inc_wide_ex = Raise ValueError /\
  topo_resid float32 sin_samples [f32 0] 2 1 2 dem_ex rg_ex inc_ex
    = Raise IndexError.
Proof.
  assert (H2 : 0 < 2) by lia.
  split; [|split].
  - destruct (topo_resid_exception float32 sin_samples [] 2 1 2
                dem_ex rg_ex inc_ex H2) as (He & _ & _).
    apply He. reflexivity.
  - destruct (topo_resid_exception float32 sin_samples [f32 0; f32 10] 2 1 2
                dem_ex rg_ex inc_wide_ex H2) as (_ & Hv & _).
    apply Hv; [discriminate|reflexivity].
  - destruct (topo_resid_exception float32 sin_samples [f32 0] 2 1 2
                dem_ex rg_ex inc_ex H2) as (_ & _ & Hs).
    apply Hs; [reflexivity|simpl; lia].
Defined.

(* ===================================================================== *)
(** ** Further properties: what cell 2 leaves behind *)
(* ===================================================================== *)


(** Whatever its outcome, cell 2 keeps the dimensions and every file other
    than the output file, and an exception leaves all files as they
    were. *)
Lemma cell2_summary (dt : dtype) (np_sin : spec_float -> spec_float)
    (s : nb_state) :
  v_num_date (cell2 dt np_sin s).1 = v_num_date s /\
  v_length (cell2 dt np_sin s).1 = v_length s /\
  v_width (cell2 dt np_sin s).1 = v_width s /\
  (forall path, path <> out_file ->
     fs (cell2 dt np_sin s).1 !! path = fs s !! path) /\
  (forall e, (cell2 dt np_sin s).2 = Raise e ->
     fs (cell2 dt np_sin s).1 = fs s).
Proof.
  destruct (fs s !! out_file) as [f|] eqn:Hf.
  - rewrite cell2_present by eauto. cbn. repeat split; discriminate.
  - rewrite (cell2_absent dt np_sin s Hf). cbv zeta.
    destruct (read_dataset (fs s) geom_file (Some "incidenceAngle"));
      [|cbn; repeat split].
    destruct (read_dataset (fs s) geom_file (Some "slantRangeDistance"));
      [|cbn; repeat split].
    destruct (read_dataset (fs s) dem_err_file None); [|cbn; repeat split].
    destruct (topo_resid _ _ _ _ _ _ _ _ _) as [ts|]; [|cbn; repeat split].
    destruct (write_timeseries (fs s) ts out_file ts_file) as [f'|] eqn:Hw;
      [|cbn; repeat split].
    unfold write_timeseries in Hw.
    destruct (fs s !! ts_file) as [[b ? ? ? ?|]|]; try discriminate.
    injection Hw as <-. cbn. repeat split; try discriminate.
    intros path Hne. now apply lookup_insert_ne.
Qed.

(** The calls cell 2 makes when the output file is absent, by outcome. *)
Lemma cell2_absent_events (dt : dtype) (np_sin : spec_float -> spec_float)
    (s : nb_state) :
  fs s !! out_file = None ->
  new_events (cell2 dt np_sin) s =
    EvRead geom_file (Some "incidenceAngle") ::
    match read_dataset (fs s) geom_file (Some "incidenceAngle") with
    | Raise _ => []
    | Ok inc =>
    EvRead geom_file (Some "slantRangeDistance") ::
    match read_dataset (fs s) geom_file (Some "slantRangeDistance") with
    | Raise _ => []
    | Ok rg =>
    EvRead dem_err_file None ::
    match read_dataset (fs s) dem_err_file None with
    | Raise _ => []
    | Ok dem =>
    match topo_resid dt np_sin (amplify dt (v_pbase s)) (v_num_date s)
            (v_length s) (v_width s) dem rg inc with
    | Raise _ => []
    | Ok ts =>
    EvWrite out_file ts_file ::
    match write_timeseries (fs s) ts out_file ts_file with
    | Raise _ => []
    | Ok _ =>
        [EvPrint ("write simulated topographic residual "
                  +:+ "time-series to file " +:+ out_file);
         EvPrint "Done."]
    end end end end end.
Proof.
  intros Hf. unfold new_events. rewrite (cell2_absent dt np_sin s Hf).
  cbv zeta.
  destruct (read_dataset (fs s) geom_file (Some "incidenceAngle"));
    [|cbn [fst trace]; apply drop_app_length].
  destruct (read_dataset (fs s) geom_file (Some "slantRangeDistance"));
    [|cbn [fst trace]; rewrite <- !app_assoc; apply drop_app_length].
  destruct (read_dataset (fs s) dem_err_file None);
    [|cbn [fst trace]; rewrite <- !app_assoc; apply drop_app_length].
  destruct (topo_resid _ _ _ _ _ _ _ _ _);
    [|cbn [fst trace]; rewrite <- !app_assoc; apply drop_app_length].
  destruct (write_timeseries _ _ _ _);
    cbn [fst trace]; rewrite <- !app_assoc; apply drop_app_length.
Qed.

(** X3: running cell 2 again after a run that computed and wrote is a
    no-op apart from printing "Done.": the file just written makes the
    guard false, so files, [pbase] and the written cube stay as they
    are. *)
Theorem cell2_rerun_is_noop (dt : dtype) (np_sin : spec_float -> spec_float)
    (s s1 : nb_state) :
  fs s !! out_file = None ->
  cell2 dt np_sin s = (s1, Ok tt) ->
  (cell2 dt np_sin s1).2 = Ok tt /\
  fs (cell2 dt np_sin s1).1 = fs s1 /\
  v_pbase (cell2 dt np_sin s1).1 = v_pbase s1 /\
  written_cube (cell2 dt np_sin s1).1 = written_cube s1 /\
  new_events (cell2 dt np_sin) s1 = [EvPrint "Done."].
Proof.
  intros Ha Hrun.
  destruct (cell2_absent_inv dt np_sin s s1 Ha Hrun)
    as (inc & rg & dem & ts & _ & _ & _ & _ & Hcube & _).
  assert (Hp : is_Some (fs s1 !! out_file)).
  { unfold written_cube in Hcube.
    destruct (fs s1 !! out_file); [eauto|discriminate]. }
  unfold new_events, written_cube.
  rewrite (cell2_present dt np_sin s1 Hp). cbn [fst snd fs v_pbase trace].
  repeat split. apply drop_app_length.
Qed.

Lemma cell2_rerun_is_noop_witness :
  fs (cell1 float32 (boot fs_ex)).1 !! out_file = None /\
  cell2 float32 sin_samples (cell1 float32 (boot fs_ex)).1 =
    ((cell2 float32 sin_samples (cell1 float32 (boot fs_ex)).1).1, Ok tt) /\
  new_events (cell2 float32 sin_samples)
    (cell2 float32 sin_samples (cell1 float32 (boot fs_ex)).1).1
    = [EvPrint "Done."].
Proof.
  assert (Ha : fs (cell1 float32 (boot fs_ex)).1 !! out_file = None)
    by (vm_compute; reflexivity).
  assert (Hrun : cell2 float32 sin_samples (cell1 float32 (boot fs_ex)).1 =
            ((cell2 float32 sin_samples (cell1 float32 (boot fs_ex)).1).1,
             Ok tt))
    by (vm_compute; reflexivity).
  split; [exact Ha|]. split; [exact Hrun|].
  destruct (cell2_rerun_is_noop float32 sin_samples _ _ Ha Hrun)
    as (_ & _ & _ & _ & Hev).
  exact Hev.
Defined.

(** X4: the amplification is cumulative.  [pbase *= 10.] rewrites the
    variable bound by cell 1, so when cell 2 computes a second time on the
    [pbase] its first run left (the output file being absent again, cell 1
    not re-run), the loop indexes baselines multiplied by 10 twice and the
    values written carry both factors. *)
Theorem amplification_accumulates (dt : dtype)
    (np_sin : spec_float -> spec_float) (s s1 s1' s2 : nb_state) :
  fs s !! out_file = None ->
  cell2 dt np_sin s = (s1, Ok tt) ->
  v_pbase s1' = v_pbase s1 ->
  fs s1' !! out_file = None ->
  cell2 dt np_sin s1' = (s2, Ok tt) ->
  v_pbase s2 = amplify dt (amplify dt (v_pbase s)) /\
  exists inc_angle rg_dist dem_err ts_data,
    read_dataset (fs s1') geom_file (Some "incidenceAngle") = Ok inc_angle /\
    read_dataset (fs s1') geom_file (Some "slantRangeDistance")
      = Ok rg_dist /\
    read_dataset (fs s1') dem_err_file None = Ok dem_err /\
    written_cube s2 = Some ts_data /\
    forall i y x,
      i < v_num_date s1' -> y < v_length s1' -> x < v_width s1' ->
      exists p0, v_pbase s !! i = Some p0 /\
        at3 ts_data i y x =
          astype_float32
            (pixel dt np_sin dem_err rg_dist inc_angle
               (fmul dt (fmul dt p0 (lit_10 dt)) (lit_10 dt)) y x).
Proof.
  intros Ha H1 Hpb Ha' H2.
  destruct (cell2_written_pixels dt np_sin s s1 Ha H1) as (Hamp1 & _).
  destruct (cell2_written_pixels dt np_sin s1' s2 Ha' H2)
    as (Hamp2 & inc & rg & dem & ts & Hinc & Hrg & Hdem & _ & Hcube & Hpix).
  rewrite Hpb, Hamp1 in Hamp2. split; [exact Hamp2|].
  exists inc, rg, dem, ts. repeat split; try assumption.
  intros i y x Hi Hy Hx.
  destruct (Hpix i y x Hi Hy Hx) as (p & Hp & Hval).
  rewrite Hpb, Hamp1 in Hp. unfold amplify in Hp.
  rewrite !list_lookup_fmap in Hp.
  destruct (v_pbase s !! i) as [p0|]; [|discriminate].
  cbn [fmap option_fmap option_map] in Hp. injection Hp as <-.
  exists p0. split; [reflexivity|exact Hval].
Qed.

Lemma amplification_accumulates_witness :
  v_pbase
    (cell2 float32 sin_samples
       (mkState fs_ex []
          (v_pbase (cell2 float32 sin_samples
                      (cell1 float32 (boot fs_ex)).1).1) 2 1 2)).1
  = amplify float32
      (amplify float32 (v_pbase (cell1 float32 (boot fs_ex)).1)).
Proof.
  refine (proj1 (amplification_accumulates float32 sin_samples
                   (cell1 float32 (boot fs_ex)).1
                   (cell2 float32 sin_samples
                      (cell1 float32 (boot fs_ex)).1).1
                   (mkState fs_ex []
                      (v_pbase (cell2 float32 sin_samples
                                  (cell1 float32 (boot fs_ex)).1).1) 2 1 2)
                   _ _ _ _ _ _));
    vm_compute; reflexivity.
Defined.

(** X5: where an exception falls relative to [pbase *= 10.] decides what
    the kernel keeps.  When both geometry reads succeed and cell 2 then
    raises (DEM-error read, array computation or write), [pbase] is left
    multiplied by 10; when a geometry read raises, [pbase] is untouched. *)
Theorem failure_after_amplify_keeps_it (dt : dtype)
    (np_sin : spec_float -> spec_float) (s : nb_state) :
  fs s !! out_file = None ->
  (forall inc rg e,
     read_dataset (fs s) geom_file (Some "incidenceAngle") = Ok inc ->
     read_dataset (fs s) geom_file (Some "slantRangeDistance") = Ok rg ->
     (cell2 dt np_sin s).2 = Raise e ->
     v_pbase (cell2 dt np_sin s).1 = amplify dt (v_pbase s)) /\
  (forall e,
     read_dataset (fs s) geom_file (Some "incidenceAngle") = Raise e \/
     read_dataset (fs s) geom_file (Some "slantRangeDistance") = Raise e ->
     v_pbase (cell2 dt np_sin s).1 = v_pbase s).
Proof.
  intros Ha. rewrite (cell2_absent dt np_sin s Ha). cbv zeta. split.
  - intros inc rg e -> -> _.
    destruct (read_dataset (fs s) dem_err_file None); [|reflexivity].
    destruct (topo_resid _ _ _ _ _ _ _ _ _); [|reflexivity].
    destruct (write_timeseries _ _ _ _); reflexivity.
  - intros e [Hi|Hg].
    + rewrite Hi. reflexivity.
    + destruct (read_dataset (fs s) geom_file (Some "incidenceAngle"));
        [|reflexivity].
      rewrite Hg. reflexivity.
Qed.

Lemma failure_after_amplify_keeps_it_witness :
  fs (cell1 float32 (boot fs_nodem_ex)).1 !! out_file = None /\
  (cell2 float32 sin_samples (cell1 float32 (boot fs_nodem_ex)).1).2
    = Raise (OSError dem_err_file) /\
  v_pbase (cell2 float32 sin_samples (cell1 float32 (boot fs_nodem_ex)).1).1
    = amplify float32 (v_pbase (cell1 float32 (boot fs_nodem_ex)).1).
Proof.
  assert (Ha : fs (cell1 float32 (boot fs_nodem_ex)).1 !! out_file = None)
    by (vm_compute; reflexivity).
  assert (Hr : (cell2 float32 sin_samples
                  (cell1 float32 (boot fs_nodem_ex)).1).2
               = Raise (OSError dem_err_file))
    by (vm_compute; reflexivity).
  split; [exact Ha|]. split; [exact Hr|].
  destruct (failure_after_amplify_keeps_it float32 sin_samples _ Ha)
    as [Hlate _].
  apply (Hlate inc_ex rg_ex (OSError dem_err_file));
    try (vm_compute; reflexivity).
Defined.

(** X6: cell 2 touches no file but the output file: whatever it reads and
    however it ends, every other path holds afterwards what it held
    before, and the dimensions [num_date], [length], [width] are not
    reassigned. *)
Theorem cell2_changes_only_output_file (dt : dtype)
    (np_sin : spec_float -> spec_float) (s : nb_state) (path : string) :
  path <> out_file ->
  fs (cell2 dt np_sin s).1 !! path = fs s !! path /\
  v_num_date (cell2 dt np_sin s).1 = v_num_date s /\
  v_length (cell2 dt np_sin s).1 = v_length s /\
  v_width (cell2 dt np_sin s).1 = v_width s.
Proof.
  intros Hne.
  destruct (cell2_summary dt np_sin s) as (Hn & Hl & Hw & Hframe & _).
  auto.
Qed.

Lemma cell2_changes_only_output_file_witness :
  geom_file <> out_file /\
  fs (cell2 float32 sin_samples (cell1 float32 (boot fs_ex)).1).1 !! geom_file
    = fs (cell1 float32 (boot fs_ex)).1 !! geom_file.
Proof.
  assert (Hne : geom_file <> out_file)
    by (intros H; vm_compute in H; discriminate).
  split; [exact Hne|].
  exact (proj1 (cell2_changes_only_output_file float32 sin_samples
                  (cell1 float32 (boot fs_ex)).1 geom_file Hne)).
Defined.



(* ===================================================================== *)
(** ** Further properties: cell 1 *)
(* ===================================================================== *)




(** X9: a reference time-series without baselines stops the notebook in
    cell 1.  [pbase[0]] raises [IndexError] after [pbase] has been bound to
    the empty array and before [num_date], [length] and [width] are
    assigned; the run ends there, having made no read, no write and no
    plot. *)
Theorem empty_baselines_stop_cell1 (dt : dtype)
    (np_sin : spec_float -> spec_float) (s : nb_state) (n l w : nat) :
  open_timeseries (fs s) ts_file = Ok ([], n, l, w) ->
  (cell1 dt s).2 = Raise IndexError /\
  v_pbase (cell1 dt s).1 = [] /\
  v_num_date (cell1 dt s).1 = v_num_date s /\
  v_length (cell1 dt s).1 = v_length s /\
  v_width (cell1 dt s).1 = v_width s /\
  (run_notebook dt np_sin s).2 = Raise IndexError /\
  new_events (run_notebook dt np_sin) s =
    [EvChdir work_dir; EvPrint ("Go to directory: " +:+ work_dir);
     EvOpen ts_file].
Proof.
  intros Hopen.
  assert (Hc : cell1 dt s =
               (mkState (fs s)
                  (trace s ++ [EvChdir work_dir;
                               EvPrint ("Go to directory: " +:+ work_dir);
                               EvOpen ts_file])
                  [] (v_num_date s) (v_length s) (v_width s),
                Raise IndexError)).
  { rewrite cell1_run. cbv zeta. rewrite Hopen. reflexivity. }
  unfold new_events, run_notebook, bind. rewrite Hc.
  cbn [fst snd v_pbase v_num_date v_length v_width trace].
  repeat split. apply drop_app_length.
Qed.

Lemma empty_baselines_stop_cell1_witness :
  open_timeseries (fs (boot fs_nobase_ex)) ts_file = Ok ([], 2, 1, 2) /\
  (run_notebook float32 sin_samples (boot fs_nobase_ex)).2
    = Raise IndexError.
Proof.
  assert (Ho : open_timeseries (fs (boot fs_nobase_ex)) ts_file
               = Ok ([], 2, 1, 2)) by (vm_compute; reflexivity).
  split; [exact Ho|].
  destruct (empty_baselines_stop_cell1 float32 sin_samples _ _ _ _ Ho)
    as (_ & _ & _ & _ & _ & Hrun & _).
  exact Hrun.
Defined.

(* ===================================================================== *)
(** ** Further properties: NaN in the inputs *)
(* ===================================================================== *)

Lemma SFmul_nan_r (p e : Z) (a : spec_float) : SFmul p e a S754_nan = S754_nan.
Proof. destruct a; reflexivity. Qed.

Lemma SFdiv_nan_r (p e : Z) (a : spec_float) : SFdiv p e a S754_nan = S754_nan.
Proof. destruct a; reflexivity. Qed.

Lemma SFsub_nan_r (p e : Z) (a : spec_float) : SFsub p e a S754_nan = S754_nan.
Proof. destruct a; reflexivity. Qed.

(* ===================================================================== *)
(** ** Further properties: running the notebook twice *)
(* ===================================================================== *)




(* ===================================================================== *)
(** ** What the cube holds, cell by cell *)
(* ===================================================================== *)

Lemma stored_table (t : ndarray3) (i y x l w : nat)
    (f : nat -> nat -> spec_float) :
  slices t !! i = Some (table l w f) -> y < l -> x < w ->
  stored t i y x = Some (f y x).
Proof.
  intros Hs Hy Hx. unfold stored. rewrite Hs. unfold table.
  change (tabulate l (fun y0 => tabulate w (fun x0 => f y0 x0)) !! y
            ≫= (fun row => row !! x) = Some (f y x)).
  rewrite tabulate_lookup by assumption.
  change (tabulate w (fun x0 => f y x0) !! x = Some (f y x)).
  now apply tabulate_lookup.
Qed.

(** A completed computation holds, at every position of every date, the
    converted quotient for the baseline of that date. *)
Lemma topo_resid_stored (dt : dtype) (np_sin : spec_float -> spec_float)
    (pb : list spec_float) (n l w : nat) (dem rg inc : ndarray2)
    (ts : ndarray3) (i y x : nat) :
  topo_resid dt np_sin pb n l w dem rg inc = Ok ts ->
  i < n -> y < l -> x < w ->
  exists p, pb !! i = Some p /\
    stored ts i y x = Some (astype_float32 (pixel dt np_sin dem rg inc p y x)).
Proof.
  intros Hts Hi Hy Hx.
  destruct (topo_resid_slices dt np_sin _ _ _ _ _ _ _ _ Hts) as [_ Hs].
  destruct (Hs i Hi) as (p & Hp & Hsl).
  exists p. split; [assumption|].
  exact (stored_table ts i y x l w _ Hsl Hy Hx).
Qed.

(** A completed computation over at least one date had a baseline for
    every date and rasters whose broadcast fits the slice. *)
Lemma topo_resid_ok_inv (dt : dtype) (np_sin : spec_float -> spec_float)
    (pb : list spec_float) (n l w : nat) (dem rg inc : ndarray2)
    (ts : ndarray3) :
  topo_resid dt np_sin pb n l w dem rg inc = Ok ts -> 0 < n ->
  n <= length pb /\
  exists r c, slice_shape dem rg inc = Some (r, c) /\
              fits r l = true /\ fits c w = true.
Proof.
  intros Hts Hn.
  destruct (topo_resid_cases dt np_sin pb n l w dem rg inc)
    as (_ & Hempty & Hbad & Hshort & _).
  assert (Hok : loop_shapes_ok l w dem rg inc = true).
  { destruct (loop_shapes_ok l w dem rg inc) eqn:Hs; [reflexivity|].
    destruct pb as [|p pb'].
    - rewrite Hempty in Hts by (reflexivity || lia). discriminate.
    - rewrite Hbad in Hts by (congruence || lia). discriminate. }
  split.
  - destruct (decide (n <= length pb)) as [|Hlt]; [assumption|].
    rewrite Hshort in Hts by (assumption || lia). discriminate.
  - unfold loop_shapes_ok in Hok.
    destruct (slice_shape dem rg inc) as [[r c]|]; [|discriminate].
    apply andb_true_iff in Hok as [Hr Hc]. eauto.
Qed.

(** Positions of the broadcast result and positions of a slice it is
    stretched into read the same cell of each raster. *)
Lemma slice_shape_bat (dem rg inc : ndarray2) (r c y x : nat) :
  slice_shape dem rg inc = Some (r, c) ->
  bat dem (bidx r y) (bidx c x) = bat dem y x /\
  bat rg (bidx r y) (bidx c x) = bat rg y x /\
  bat inc (bidx r y) (bidx c x) = bat inc y x.
Proof.
  unfold slice_shape.
  destruct (broadcast_dim (rows rg) (rows inc)) as [r2|] eqn:Er2;
    [|discriminate].
  destruct (broadcast_dim (cols rg) (cols inc)) as [c2|] eqn:Ec2;
    [|discriminate].
  destruct (broadcast_dim (rows dem) r2) as [r'|] eqn:Er; [|discriminate].
  destruct (broadcast_dim (cols dem) c2) as [c'|] eqn:Ec; [|discriminate].
  intros [= <- <-].
  destruct (broadcast_dim_bidx _ _ _ y Er) as [Hdy H2y].
  destruct (broadcast_dim_bidx _ _ _ x Ec) as [Hdx H2x].
  destruct (broadcast_dim_bidx _ _ _ (bidx r' y) Er2) as [Hgy' Hiy'].
  destruct (broadcast_dim_bidx _ _ _ (bidx c' x) Ec2) as [Hgx' Hix'].
  destruct (broadcast_dim_bidx _ _ _ y Er2) as [Hgy Hiy].
  destruct (broadcast_dim_bidx _ _ _ x Ec2) as [Hgx Hix].
  unfold bat. rewrite Hdy, Hdx.
  rewrite <- Hgy', <- Hgx', <- Hiy', <- Hix'.
  rewrite H2y, H2x, Hgy, Hgx, Hiy, Hix. auto.
Qed.

Lemma table_fmap (g : spec_float -> spec_float) (r c : nat)
    (f : nat -> nat -> spec_float) :
  (fun row : list spec_float => g <$> row) <$> table r c f
  = table r c (fun y x => g (f y x)).
Proof.
  unfold table, tabulate. rewrite <- list_fmap_compose.
  apply list_fmap_ext. intros _ y _. cbn.
  now rewrite <- list_fmap_compose.
Qed.

Lemma pixel_at_broadcast_position (dt : dtype)
    (np_sin : spec_float -> spec_float) (dem rg inc : ndarray2)
    (p : spec_float) (r c y x : nat) :
  slice_shape dem rg inc = Some (r, c) ->
  pixel dt np_sin dem rg inc p (bidx r y) (bidx c x)
  = pixel dt np_sin dem rg inc p y x.
Proof.
  intros Hs. destruct (slice_shape_bat dem rg inc r c y x Hs) as (Hd & Hg & Hi).
  unfold pixel, den_at. now rewrite Hd, Hg, Hi.
Qed.

(* ===================================================================== *)
(** ** The loop against the one-line expression *)
(* ===================================================================== *)

(** C3 as stated fails: the loop and the one-line broadcast expression do
    not always produce identical arrays.  With rasters of a single cell and
    a declared slice of 1 x 2 both complete, the loop filling a cube of
    shape (2, 1, 2) and the expression giving one of shape (2, 1, 1).  And
    with binary64 inputs of matching shapes the loop holds the float32
    rounding of what the expression holds (a baseline of 0.1). *)
Lemma loop_differs_from_one_line :
  (exists ts e,
     topo_resid float32 sin_samples [f32 0; f32 10] 2 1 2
       dem_one_ex rg_one_ex inc_one_ex = Ok ts /\
     one_line_broadcast float32 sin_samples [f32 0; f32 10]
       dem_one_ex rg_one_ex inc_one_ex = Ok e /\
     (dates ts, len ts, wid ts) = (2, 1, 2) /\
     (dates e, len e, wid e) = (2, 1, 1) /\
     ts <> e) /\
  (exists ts e,
     topo_resid float64 sin_samples64 [tenth64] 1 1 1
       dem_one_ex64 rg_one_ex64 inc_one_ex64 = Ok ts /\
     one_line_broadcast float64 sin_samples64 [tenth64]
       dem_one_ex64 rg_one_ex64 inc_one_ex64 = Ok e /\
     stored e 0 0 0 = Some tenth64 /\
     stored ts 0 0 0 = Some (astype_float32 tenth64) /\
     astype_float32 tenth64 <> tenth64 /\
     ts <> e).
Proof.
  split.
  - eexists _, _.
    split; [vm_compute; reflexivity|]. split; [vm_compute; reflexivity|].
    split; [reflexivity|]. split; [reflexivity|]. discriminate.
  - eexists _, _.
    split; [vm_compute; reflexivity|]. split; [vm_compute; reflexivity|].
    split; [reflexivity|]. split; [vm_compute; reflexivity|].
    split; [vm_compute; discriminate|]. vm_compute. discriminate.
Qed.

(** C3 (amended): the loop fills [ts_data] with the float32 conversion of
    the one-line broadcast expression.  When there is one baseline per date
    and the rasters broadcast to exactly the slice shape, both complete,
    have the same shape, and the loop's array is the expression's array
    converted element by element to float32.  In general, whenever the loop
    completes over at least one date, the expression is defined, has at
    least as many dates, a shape that fits the slice, and every cell of
    [ts_data] holds the float32 conversion of the expression's cell at the
    corresponding broadcast position. *)
Theorem loop_is_stored_one_line (dt : dtype)
    (np_sin : spec_float -> spec_float) (pb : list spec_float) (n l w : nat)
    (dem_err rg_dist inc_angle : ndarray2) :
  (length pb = n -> slice_shape dem_err rg_dist inc_angle = Some (l, w) ->
   exists ts_data e,
     topo_resid dt np_sin pb n l w dem_err rg_dist inc_angle = Ok ts_data /\
     one_line_broadcast dt np_sin pb dem_err rg_dist inc_angle = Ok e /\
     (dates e, len e, wid e) = (dates ts_data, len ts_data, wid ts_data) /\
     slices ts_data =
       (fun slice : list (list spec_float) =>
          (fun row : list spec_float => astype_float32 <$> row) <$> slice)
       <$> slices e) /\
  (forall ts_data,
     topo_resid dt np_sin pb n l w dem_err rg_dist inc_angle = Ok ts_data ->
     0 < n ->
     exists e,
       one_line_broadcast dt np_sin pb dem_err rg_dist inc_angle = Ok e /\
       n <= dates e /\
       fits (len e) l = true /\ fits (wid e) w = true /\
       forall i y x, i < n -> y < l -> x < w ->
         exists u,
           stored e i (bidx (len e) y) (bidx (wid e) x) = Some u /\
           stored ts_data i y x = Some (astype_float32 u)).
Proof.
  split.
  - intros Hlen Hs.
    assert (Hok : loop_shapes_ok l w dem_err rg_dist inc_angle = true).
    { unfold loop_shapes_ok. rewrite Hs, !fits_refl. reflexivity. }
    destruct (topo_resid_cases dt np_sin pb n l w dem_err rg_dist inc_angle)
      as (_ & _ & _ & _ & Htot).
    destruct (Htot Hok) as [ts Hts]; [lia|].
    destruct (topo_resid_slices dt np_sin _ _ _ _ _ _ _ _ Hts)
      as [(Hd & Hl & Hw & Hn) Hsl].
    exists ts. unfold one_line_broadcast. rewrite Hs.
    eexists. split; [exact Hts|]. split; [reflexivity|].
    cbn [dates len wid slices]. split; [congruence|].
    apply list_eq. intros i. rewrite !list_lookup_fmap.
    destruct (decide (i < n)) as [Hi|Hi].
    + destruct (Hsl i Hi) as (p & Hp & ->). rewrite Hp.
      cbn [fmap option_fmap option_map]. f_equal.
      rewrite table_fmap. reflexivity.
    + rewrite (lookup_ge_None_2 (slices ts)) by lia.
      rewrite (lookup_ge_None_2 pb) by lia. reflexivity.
  - intros ts Hts Hn.
    destruct (topo_resid_ok_inv dt np_sin _ _ _ _ _ _ _ _ Hts Hn)
      as (Hle & r & c & Hs & Hr & Hc).
    unfold one_line_broadcast. rewrite Hs.
    eexists. split; [reflexivity|]. cbn [dates len wid].
    split; [exact Hle|]. split; [exact Hr|]. split; [exact Hc|].
    intros i y x Hi Hy Hx.
    destruct (topo_resid_stored dt np_sin _ _ _ _ _ _ _ _ i y x Hts Hi Hy Hx)
      as (p & Hp & Hst).
    exists (pixel dt np_sin dem_err rg_dist inc_angle p (bidx r y) (bidx c x)).
    split.
    + refine (stored_table _ i (bidx r y) (bidx c x) r c _ _ _ _).
      * cbn [slices]. rewrite list_lookup_fmap, Hp. reflexivity.
      * eapply bidx_lt; eassumption.
      * eapply bidx_lt; eassumption.
    + rewrite Hst. now rewrite (pixel_at_broadcast_position _ _ _ _ _ _ _ _ _ _ Hs).
Qed.

Lemma loop_is_stored_one_line_witness :
  length [f32 0; f32 10] = 2 /\
  slice_shape dem_ex rg_ex inc_ex = Some (1, 2) /\
  (exists ts,
     topo_resid float32 sin_samples [f32 0; f32 10] 2 1 2
       dem_one_ex rg_one_ex inc_one_ex = Ok ts /\
     exists u, stored ts 1 0 1 = Some (astype_float32 u)) /\
  exists ts e,
    topo_resid float32 sin_samples [f32 0; f32 10] 2 1 2
      dem_ex rg_ex inc_ex = Ok ts /\
    one_line_broadcast float32 sin_samples [f32 0; f32 10]
      dem_ex rg_ex inc_ex = Ok e /\
    (dates e, len e, wid e) = (dates ts, len ts, wid ts).
Proof.
  assert (Hlen : length [f32 0; f32 10] = 2) by reflexivity.
  assert (Hs : slice_shape dem_ex rg_ex inc_ex = Some (1, 2))
    by reflexivity.
  split; [exact Hlen|]. split; [exact Hs|]. split.
  - assert (Hts : topo_resid float32 sin_samples [f32 0; f32 10] 2 1 2
                    dem_one_ex rg_one_ex inc_one_ex
                  = Ok (mk3 2 1 2
                          [[[f32 0; f32 0]]; [[f32 10; f32 10]]]))
      by (vm_compute; reflexivity).
    eexists. split; [exact Hts|].
    destruct (loop_is_stored_one_line float32 sin_samples [f32 0; f32 10]
                2 1 2 dem_one_ex rg_one_ex inc_one_ex) as [_ Hgen].
    destruct (Hgen _ Hts) as (e & _ & _ & _ & _ & Hcells); [lia|].
    destruct (Hcells 1 0 1) as (u & _ & Hu); [lia..|].
    exists u. exact Hu.
  - destruct (loop_is_stored_one_line float32 sin_samples [f32 0; f32 10]
                2 1 2 dem_ex rg_ex inc_ex) as [Hexact _].
    destruct (Hexact Hlen Hs) as (ts & e & Hts & He & Hshape & _).
    exists ts, e. auto.
Defined.

(* ===================================================================== *)
(** ** Division by a zero denominator *)
(* ===================================================================== *)

Lemma SFdiv_by_zero_class (p e : Z) (a d : spec_float) :
  is_zero d = true ->
  if is_zero a || is_nan a then SFdiv p e a d = S754_nan
  else is_inf (SFdiv p e a d) = true.
Proof.
  destruct d; try discriminate; intros _. destruct a; reflexivity.
Qed.

Lemma astype_float32_inf (v : spec_float) :
  is_inf v = true -> is_inf (astype_float32 v) = true.
Proof. destruct v; try discriminate; reflexivity. Qed.

(** C7: the division is unguarded and total.  Whether the computation
    completes is decided by the number of baselines and the shapes alone,
    never by the values in the arrays; and in any completed computation a
    pixel whose denominator [rg_dist * sin(inc_angle * pi / 180)] is zero
    holds the float32 value of the quotient, which is not finite: NaN when
    the numerator is zero or NaN, an infinity otherwise. *)
Theorem zero_denominator_gives_nonfinite (dt : dtype)
    (np_sin : spec_float -> spec_float) (pb : list spec_float) (n l w : nat)
    (dem_err rg_dist inc_angle : ndarray2) :
  ((exists ts, topo_resid dt np_sin pb n l w dem_err rg_dist inc_angle = Ok ts)
   <-> n = 0 \/
       (n <= length pb /\
        loop_shapes_ok l w dem_err rg_dist inc_angle = true)) /\
  forall ts_data i y x,
    topo_resid dt np_sin pb n l w dem_err rg_dist inc_angle = Ok ts_data ->
    i < n -> y < l -> x < w ->
    is_zero (den_at dt np_sin rg_dist inc_angle y x) = true ->
    exists p v,
      pb !! i = Some p /\
      stored ts_data i y x = Some v /\
      v = astype_float32
            (fdiv dt (fmul dt (bat dem_err y x) p)
               (den_at dt np_sin rg_dist inc_angle y x)) /\
      isfinite v = false /\
      (if is_zero (fmul dt (bat dem_err y x) p)
          || is_nan (fmul dt (bat dem_err y x) p)
       then v = S754_nan else is_inf v = true).
Proof.
  split.
  - destruct (topo_resid_cases dt np_sin pb n l w dem_err rg_dist inc_angle)
      as (H0 & _ & _ & _ & Hok).
    split.
    + intros [ts Hts].
      destruct (decide (n = 0)) as [|Hn]; [now left|right].
      destruct (topo_resid_ok_inv dt np_sin _ _ _ _ _ _ _ _ Hts)
        as (Hle & r & c & Hs & Hr & Hc); [lia|].
      split; [exact Hle|]. unfold loop_shapes_ok. now rewrite Hs, Hr, Hc.
    + intros [->|[Hle Hs]]; [eexists; apply H0; reflexivity|].
      now apply Hok.
  - intros ts i y x Hts Hi Hy Hx Hz.
    destruct (topo_resid_stored dt np_sin _ _ _ _ _ _ _ _ i y x Hts Hi Hy Hx)
      as (p & Hp & Hst).
    exists p, (astype_float32
                 (pixel dt np_sin dem_err rg_dist inc_angle p y x)).
    split; [exact Hp|]. split; [exact Hst|]. split; [reflexivity|].
    unfold pixel, fdiv. split.
    + apply astype_float32_nonfinite. now apply SFdiv_by_zero.
    + pose proof (SFdiv_by_zero_class (prec dt) (emax dt)
                    (fmul dt (bat dem_err y x) p)
                    (den_at dt np_sin rg_dist inc_angle y x) Hz) as Hcl.
      destruct (is_zero (fmul dt (bat dem_err y x) p)
                || is_nan (fmul dt (bat dem_err y x) p)).
      * rewrite Hcl. reflexivity.
      * now apply astype_float32_inf.
Qed.

Lemma zero_denominator_gives_nonfinite_witness :
  is_zero (den_at float32 sin_samples rg_ex inc_ex 0 1) = true /\
  exists ts,
    topo_resid float32 sin_samples [f32 0; f32 10] 2 1 2
      dem_ex rg_ex inc_ex = Ok ts /\
    exists v, stored ts 1 0 1 = Some v /\ is_inf v = true.
Proof.
  assert (Hz : is_zero (den_at float32 sin_samples rg_ex inc_ex 0 1) = true)
    by (vm_compute; reflexivity).
  assert (Hts : topo_resid float32 sin_samples [f32 0; f32 10] 2 1 2
                  dem_ex rg_ex inc_ex
                = Ok (mk3 2 1 2
                        [[[f32 0; S754_nan]];
                         [[f32 10; S754_infinity false]]]))
    by (vm_compute; reflexivity).
  split; [exact Hz|]. eexists. split; [exact Hts|].
  destruct (zero_denominator_gives_nonfinite float32 sin_samples
              [f32 0; f32 10] 2 1 2 dem_ex rg_ex inc_ex) as [_ Hpix].
  destruct (Hpix _ 1 0 1 Hts) as (p & v & Hp & Hst & _ & _ & Hcl);
    [lia..|exact Hz|].
  exists v. split; [exact Hst|].
  injection Hp as <-. exact Hcl.
Defined.

(* ===================================================================== *)
(** ** Exceptions of the external calls *)
(* ===================================================================== *)

(** Cell 2 only ever appends to the trace. *)
Lemma cell2_trace_extends (dt : dtype) (np_sin : spec_float -> spec_float)
    (s : nb_state) :
  trace (cell2 dt np_sin s).1 = trace s ++ new_events (cell2 dt np_sin) s.
Proof.
  assert (Hex : exists evs, trace (cell2 dt np_sin s).1 = trace s ++ evs).
  { destruct (fs s !! out_file) as [f|] eqn:Hf.
    - rewrite cell2_present by eauto. cbn [fst trace]. eauto.
    - rewrite (cell2_absent dt np_sin s Hf). cbv zeta.
      destruct (read_dataset (fs s) geom_file (Some "incidenceAngle"));
        [|cbn [fst trace]; eauto].
      destruct (read_dataset (fs s) geom_file (Some "slantRangeDistance"));
        [|cbn [fst trace]; rewrite <- !app_assoc; eauto].
      destruct (read_dataset (fs s) dem_err_file None);
        [|cbn [fst trace]; rewrite <- !app_assoc; eauto].
      destruct (topo_resid _ _ _ _ _ _ _ _ _);
        [|cbn [fst trace]; rewrite <- !app_assoc; eauto].
      destruct (write_timeseries _ _ _ _);
        cbn [fst trace]; rewrite <- !app_assoc; eauto. }
  destruct Hex as [evs Hevs]. unfold new_events.
  rewrite Hevs at 2. now rewrite drop_app_length.
Qed.

(** C8: nothing in the notebook catches an exception, and no call is
    retried.  When opening the reference time-series fails, cell 1 and the
    whole run end with that exception after the single open call.  When a
    call of cell 2 fails (one of the three reads, the array computation on
    mismatched shapes, or the write), cell 2 ends with exactly that
    exception and its calls are the ones up to the failing call, each made
    once and none after it.  And an exception of cell 2 is the outcome of
    the run, whose calls stop there: the plot is never reached. *)
Theorem library_exceptions_propagate (dt : dtype)
    (np_sin : spec_float -> spec_float) (s : nb_state) :
  (forall e,
     open_timeseries (fs s) ts_file = Raise e ->
     (cell1 dt s).2 = Raise e /\
     new_events (cell1 dt) s =
       [EvChdir work_dir; EvPrint ("Go to directory: " +:+ work_dir);
        EvOpen ts_file] /\
     (run_notebook dt np_sin s).2 = Raise e /\
     new_events (run_notebook dt np_sin) s = new_events (cell1 dt) s) /\
  (forall e calls,
     fs s !! out_file = None ->
     cell2_call_fails dt np_sin s e calls ->
     (cell2 dt np_sin s).2 = Raise e /\
     new_events (cell2 dt np_sin) s = calls) /\
  (forall s1 e,
     cell1 dt s = (s1, Ok tt) ->
     (cell2 dt np_sin s1).2 = Raise e ->
     (run_notebook dt np_sin s).2 = Raise e /\
     new_events (run_notebook dt np_sin) s =
       new_events (cell1 dt) s ++ new_events (cell2 dt np_sin) s1).
Proof.
  split; [|split].
  - intros e Hopen.
    assert (Hc : cell1 dt s =
                 (mkState (fs s)
                    (trace s ++ [EvChdir work_dir;
                                 EvPrint ("Go to directory: " +:+ work_dir);
                                 EvOpen ts_file])
                    (v_pbase s) (v_num_date s) (v_length s) (v_width s),
                  Raise e)).
    { rewrite cell1_run. cbv zeta. rewrite Hopen. reflexivity. }
    unfold new_events, run_notebook, bind. rewrite Hc. cbn [fst snd trace].
    rewrite drop_app_length. repeat split.
  - intros e calls Ha Hf.
    rewrite (cell2_absent_events dt np_sin s Ha).
    rewrite (cell2_absent dt np_sin s Ha). cbv zeta.
    destruct Hf as [e Hi | inc e Hi Hg | inc rg e Hi Hg Hd
                    | inc rg dem e Hi Hg Hd Ht
                    | inc rg dem ts e Hi Hg Hd Ht Hw];
      rewrite Hi; try rewrite Hg; try rewrite Hd; try rewrite Ht;
      try rewrite Hw; split; reflexivity.
  - intros s1 e H1 H2.
    destruct (cell1_inv dt s s1 H1)
      as (raw & n & l & w & pn & _ & _ & _ & _ & _ & _ & _ & Htr).
    pose proof (cell2_trace_extends dt np_sin s1) as Hext.
    assert (E1 : new_events (cell1 dt) s =
                 [EvChdir work_dir;
                  EvPrint ("Go to directory: " +:+ work_dir);
                  EvOpen ts_file]).
    { unfold new_events. rewrite H1. cbn [fst]. rewrite Htr.
      apply drop_app_length. }
    assert (Er : run_notebook dt np_sin s
                 = ((cell2 dt np_sin s1).1, Raise e)).
    { unfold run_notebook, bind. rewrite H1.
      destruct (cell2 dt np_sin s1) as [s2 r2]. cbn [snd] in H2. subst r2.
      reflexivity. }
    rewrite E1. unfold new_events at 1. rewrite Er. cbn [fst snd].
    split; [reflexivity|].
    rewrite Hext, Htr, <- app_assoc. apply drop_app_length.
Qed.

Lemma library_exceptions_propagate_witness :
  (cell2_call_fails float32 sin_samples after_cell1_noref_ex
     (OSError ts_file)
     [EvRead geom_file (Some "incidenceAngle");
      EvRead geom_file (Some "slantRangeDistance");
      EvRead dem_err_file None;
      EvWrite out_file ts_file] /\
   (cell2 float32 sin_samples after_cell1_noref_ex).2
     = Raise (OSError ts_file)) /\
  (cell1 float32 (boot fs_nogeom_ex)
     = ((cell1 float32 (boot fs_nogeom_ex)).1, Ok tt) /\
   (run_notebook float32 sin_samples (boot fs_nogeom_ex)).2
     = Raise (OSError geom_file)) /\
  (open_timeseries (fs (boot ∅)) ts_file = Raise (OSError ts_file) /\
   (run_notebook float32 sin_samples (boot ∅)).2 = Raise (OSError ts_file)).
Proof.
  split; [|split].
  - assert (Ha : fs after_cell1_noref_ex !! out_file = None)
      by (vm_compute; reflexivity).
    assert (Hf : cell2_call_fails float32 sin_samples after_cell1_noref_ex
                   (OSError ts_file)
                   [EvRead geom_file (Some "incidenceAngle");
                    EvRead geom_file (Some "slantRangeDistance");
                    EvRead dem_err_file None;
                    EvWrite out_file ts_file]).
    { apply (fails_write float32 sin_samples after_cell1_noref_ex
               inc_ex rg_ex dem_ex
               (mk3 2 1 2 [[[f32 0; S754_nan]];
                           [[f32 10; S754_infinity false]]]));
        vm_compute; reflexivity. }
    split; [exact Hf|].
    destruct (library_exceptions_propagate float32 sin_samples
                after_cell1_noref_ex) as (_ & Hcell2 & _).
    exact (proj1 (Hcell2 _ _ Ha Hf)).
  - assert (H1 : cell1 float32 (boot fs_nogeom_ex)
                 = ((cell1 float32 (boot fs_nogeom_ex)).1, Ok tt))
      by (vm_compute; reflexivity).
    assert (H2 : (cell2 float32 sin_samples
                    (cell1 float32 (boot fs_nogeom_ex)).1).2
                 = Raise (OSError geom_file))
      by (vm_compute; reflexivity).
    split; [exact H1|].
    destruct (library_exceptions_propagate float32 sin_samples
                (boot fs_nogeom_ex)) as (_ & _ & Hrun).
    exact (proj1 (Hrun _ _ H1 H2)).
  - assert (Ho : open_timeseries (fs (boot ∅)) ts_file
                 = Raise (OSError ts_file)) by (vm_compute; reflexivity).
    split; [exact Ho|].
    destruct (library_exceptions_propagate float32 sin_samples (boot ∅))
      as (Hopen & _ & _).
    destruct (Hopen _ Ho) as (_ & _ & Hrun & _). exact Hrun.
Defined.

(* ===================================================================== *)
(** ** NaN in the inputs: what the cube holds *)
(* ===================================================================== *)

(** X10: a NaN in [dem_err] or in [rg_dist] at a pixel makes the value
    held at that pixel NaN for every date, whatever the baseline and the
    other rasters hold there. *)
Theorem nan_raster_gives_nan (dt : dtype)
    (np_sin : spec_float -> spec_float) (pb : list spec_float) (n l w : nat)
    (dem_err rg_dist inc_angle : ndarray2) (ts_data : ndarray3)
    (i y x : nat) :
  topo_resid dt np_sin pb n l w dem_err rg_dist inc_angle = Ok ts_data ->
  i < n -> y < l -> x < w ->
  is_nan (bat dem_err y x) || is_nan (bat rg_dist y x) = true ->
  stored ts_data i y x = Some S754_nan.
Proof.
  intros Hts Hi Hy Hx Hnan.
  destruct (topo_resid_stored dt np_sin _ _ _ _ _ _ _ _ i y x Hts Hi Hy Hx)
    as (p & _ & ->).
  f_equal. unfold pixel, den_at, fdiv, fmul.
  apply orb_true_iff in Hnan as [Hd|Hr].
  - destruct (bat dem_err y x); try discriminate. reflexivity.
  - destruct (bat rg_dist y x); try discriminate.
    cbn [SFmul]. now rewrite SFdiv_nan_r.
Qed.

Lemma nan_raster_gives_nan_witness :
  exists ts,
    topo_resid float32 sin_samples [f32 0; f32 10] 2 1 2
      dem_nan_ex rg_ex inc_ex = Ok ts /\
    stored ts 1 0 0 = Some S754_nan.
Proof.
  eexists. split; [vm_compute; reflexivity|].
  apply (nan_raster_gives_nan float32 sin_samples [f32 0; f32 10] 2 1 2
           dem_nan_ex rg_ex inc_ex);
    [vm_compute; reflexivity|lia|lia|lia|reflexivity].
Defined.

(** X11: a NaN first baseline poisons the whole output.  [pbase -= pbase[0]]
    then turns every baseline into NaN, and the written cube holds NaN at
    every pixel of every date. *)
Theorem nan_first_baseline_poisons_cube (dt : dtype)
    (np_sin : spec_float -> spec_float) (s0 s1 s2 : nb_state)
    (pbase_raw : list spec_float) (n l w : nat) :
  cell1 dt s0 = (s1, Ok tt) ->
  fs s0 !! out_file = None ->
  cell2 dt np_sin s1 = (s2, Ok tt) ->
  open_timeseries (fs s0) ts_file = Ok (pbase_raw, n, l, w) ->
  pbase_raw !! 0 = Some S754_nan ->
  length (v_pbase s1) = length pbase_raw /\
  (forall p, p ∈ v_pbase s1 -> p = S754_nan) /\
  exists ts_data,
    written_cube s2 = Some ts_data /\
    (dates ts_data, len ts_data, wid ts_data) = (n, l, w) /\
    forall i y x, i < n -> y < l -> x < w ->
      stored ts_data i y x = Some S754_nan.
Proof.
  intros H1 Ha H2 Hopen H0.
  destruct (cell1_inv dt s0 s1 H1)
    as (raw & n' & l' & w' & pn & Hopen' & Hnorm & Hfs & Hpb & Hn & Hl & Hw
        & _).
  rewrite Hopen in Hopen'. injection Hopen' as <- <- <- <-.
  destruct (normalize_inv _ _ _ Hnorm) as (r0 & H0' & Hpn).
  rewrite H0 in H0'. injection H0' as <-.
  assert (Hall : forall p, p ∈ pn -> p = S754_nan).
  { intros p Hin. rewrite Hpn in Hin.
    apply list_elem_of_fmap in Hin as (v & -> & _).
    apply SFsub_nan_r. }
  split; [rewrite Hpb, Hpn; apply length_fmap|].
  split; [rewrite Hpb; exact Hall|].
  rewrite <- Hfs in Ha.
  destruct (cell2_absent_inv dt np_sin s1 s2 Ha H2)
    as (inc & rg & dem & ts & _ & _ & _ & Hts & Hcube & _).
  rewrite Hn, Hl, Hw, Hpb in Hts.
  destruct (topo_resid_slices dt np_sin _ _ _ _ _ _ _ _ Hts)
    as [(Hd & Hl' & Hw' & _) _].
  exists ts. split; [assumption|]. split; [congruence|].
  intros i y x Hi Hy Hx.
  destruct (topo_resid_stored dt np_sin _ _ _ _ _ _ _ _ i y x Hts Hi Hy Hx)
    as (p & Hp & ->).
  f_equal. unfold amplify in Hp. rewrite list_lookup_fmap in Hp.
  destruct (pn !! i) as [q|] eqn:Hq; [|discriminate].
  cbn [fmap option_fmap option_map] in Hp. injection Hp as <-.
  rewrite (Hall q) by (eapply list_elem_of_lookup_2; eassumption).
  unfold pixel, fdiv, fmul. cbn [SFmul].
  now rewrite SFmul_nan_r.
Qed.

Lemma nan_first_baseline_poisons_cube_witness :
  exists ts,
    written_cube
      (cell2 float32 sin_samples (cell1 float32 (boot fs_nanbase_ex)).1).1
      = Some ts /\
    stored ts 1 0 0 = Some S754_nan.
Proof.
  assert (H1 : cell1 float32 (boot fs_nanbase_ex)
               = ((cell1 float32 (boot fs_nanbase_ex)).1, Ok tt))
    by (vm_compute; reflexivity).
  assert (Ha : fs (boot fs_nanbase_ex) !! out_file = None)
    by (vm_compute; reflexivity).
  assert (H2 : cell2 float32 sin_samples
                 (cell1 float32 (boot fs_nanbase_ex)).1
               = ((cell2 float32 sin_samples
                     (cell1 float32 (boot fs_nanbase_ex)).1).1, Ok tt))
    by (vm_compute; reflexivity).
  assert (Ho : open_timeseries (fs (boot fs_nanbase_ex)) ts_file
               = Ok (raw_nan_ex, 2, 1, 2)) by (vm_compute; reflexivity).
  assert (H0 : raw_nan_ex !! 0 = Some S754_nan) by reflexivity.
  destruct (nan_first_baseline_poisons_cube float32 sin_samples _ _ _ _ _ _ _
              H1 Ha H2 Ho H0) as (_ & _ & ts & Hcube & _ & Hpix).
  exists ts. split; [exact Hcube|].
  apply Hpix; lia.
Defined.
